(** * pros-depot: the incremental synchronisation engine

    A shallow embedding of the TypeScript sources of the PROS depot action
    ([src/utils.ts], [src/main.ts], [src/schema.ts] and the earlier
    revisions of [main.ts] kept in the repository) together with the
    properties of the asset extractor, the cache resolver, the template
    converter, the commit-message generator and the publish protocol.

    Conventions of the embedding:
    - a JavaScript [string] is a [String.string];
    - a JavaScript [number] that holds an identifier, a count or a time
      value is a [Z] (or a [nat] for a counter that only grows from 0);
    - [T | null] and a missing [Map] entry are [option T];
    - a function that may [throw] returns a [completion];
    - a [Date] is its time value in milliseconds, [None] for an invalid date;
    - an [async] function that talks to GitHub is a tree of requests whose
      continuation receives the response ([Action]). *)

From Stdlib Require Import ZArith Ascii String List Bool Lia.
From stdpp Require Import gmap strings list pretty.

Local Open Scope string_scope.
Local Open Scope Z_scope.

(** ** The JavaScript runtime *)

(** An [Error] object, identified by its message. *)
Record Error := mkError { message : string }.

(** The completion of a call: a returned value or a thrown [Error]. *)
Inductive completion (A : Type) : Type :=
| Return (value : A)
| Throw (error : Error).
Arguments Return {A} value.
Arguments Throw {A} error.

(** [s.includes(c)] for a one-character search string. *)
Fixpoint includes (c : ascii) (s : string) : bool :=
  match s with
  | EmptyString => false
  | String a rest => if Ascii.eqb a c then true else includes c rest
  end.

(** The first piece of [s.split(c)] and the list of the pieces after it. *)
Fixpoint split_pieces (c : ascii) (s : string) : string * list string :=
  match s with
  | EmptyString => (EmptyString, [])
  | String a rest =>
      let (piece, pieces) := split_pieces c rest in
      if Ascii.eqb a c then (EmptyString, piece :: pieces)
      else (String a piece, pieces)
  end.

(** [s.split(c)] for a one-character separator: never empty, the empty
    string splits into one empty piece. *)
Definition split (c : ascii) (s : string) : list string :=
  let (piece, pieces) := split_pieces c s in piece :: pieces.

(** [s.endsWith(suffix)]: the last [suffix.length] characters of [s] are
    compared with [suffix]; a suffix longer than [s] never matches. *)
Definition endsWith (s suffix : string) : bool :=
  let len := String.length s in
  let n := String.length suffix in
  if (n <=? len)%nat then String.eqb (substring (len - n) n s) suffix
  else false.

(** A [Date]: its time value, milliseconds since the epoch, or [None] for
    an invalid date (time value [NaN]). *)
Definition Date : Type := option Z.

(** [a > b] on dates: both are converted to their time values, and every
    comparison with [NaN] is false. *)
Definition Date_gt (a b : Date) : bool :=
  match a, b with
  | Some x, Some y => y <? x
  | _, _ => false
  end.

(** A JSON value, as [z.any()] admits it; a number is
    [mantissa * 10 ^ exponent]. *)
#[warnings="-register-all"]
Inductive Json : Type :=
| JNull
| JBool (b : bool)
| JNumber (mantissa exponent : Z)
| JString (s : string)
| JArray (items : list Json)
| JObject (fields : list (string * Json)).

(** What the embedding takes from the JavaScript runtime rather than from
    the repository: the parser behind [new Date(string)] and [JSON.parse],
    [None] where it throws a [SyntaxError]. *)
Class JsRuntime : Type := {
  Date_parse : string -> Date;
  JSON_parse : string -> option Json
}.

(** ** schema.ts *)

Module Metadata.
Record t := mk { location : string }.
End Metadata.

(** An entry in the depot.  The ['py/object'] tag of the schema is a
    literal, the same for every entry, so the record does not store it. *)
Module BaseTemplate.
Record t := mk {
  metadata : Metadata.t;
  name : string;
  supported_kernels : string;
  target : string;
  version : string
}.
Definition py_object : string :=
  "pros.conductor.templates.base_template.BaseTemplate".
End BaseTemplate.
Abbreviation BaseTemplate := BaseTemplate.t.

(** A list of base templates, stored in a JSON file. *)
Abbreviation Depot := (list BaseTemplate).

(** The ['py/state'] of the content of a [template.pros] file. *)
Module PyState.
Record t := mk {
  metadata : list (string * Json);
  name : string;
  supported_kernels : string;
  system_files : list string;
  target : string;
  user_files : list string;
  version : string
}.
End PyState.

(** The content of the [template.pros] file in the template zip file. *)
Module ExternalTemplate.
Record t := mk { py_state : PyState.t }.
Definition py_object : string :=
  "pros.conductor.templates.external_template.ExternalTemplate".
End ExternalTemplate.
Abbreviation ExternalTemplate := ExternalTemplate.t.

#[global] Instance Metadata_eq_dec : EqDecision Metadata.t.
Proof. solve_decision. Defined.

#[global] Instance BaseTemplate_eq_dec : EqDecision BaseTemplate.
Proof. solve_decision. Defined.

(** *** The zod schemas

    [Schema.safeParse(input)] is [Some data] on success and [None] on a
    validation error.  An input is [None] where the property that is read
    is absent ([undefined]). *)

(** [object[key]] on a parsed JSON object: of two members with one name
    [JSON.parse] keeps the later. *)
Definition get_property (key : string) (fields : list (string * Json)) : option Json :=
  fold_left
    (fun found field => if String.eqb field.1 key then Some field.2 else found)
    fields None.

(** [z.string()] *)
Definition z_string (input : option Json) : option string :=
  match input with
  | Some (JString s) => Some s
  | _ => None
  end.

(** [z.literal(literal)] *)
Definition z_literal (literal : string) (input : option Json) : option string :=
  match input with
  | Some (JString s) => if String.eqb s literal then Some s else None
  | _ => None
  end.

(** [z.array(z.string())] *)
Definition z_array_string (input : option Json) : option (list string) :=
  match input with
  | Some (JArray items) => mapM (fun item => z_string (Some item)) items
  | _ => None
  end.

(** [z.record(z.string(), z.any())] *)
Definition z_record_any (input : option Json) : option (list (string * Json)) :=
  match input with
  | Some (JObject fields) => Some fields
  | _ => None
  end.

(** [z.object({ location: z.string() })] *)
Definition MetadataSchema_safeParse (input : option Json) : option Metadata.t :=
  match input with
  | Some (JObject fields) =>
      location ← z_string (get_property "location" fields);
      Some (Metadata.mk location)
  | _ => None
  end.

Definition BaseTemplateSchema_safeParse (input : Json) : option BaseTemplate :=
  match input with
  | JObject fields =>
      metadata ← MetadataSchema_safeParse (get_property "metadata" fields);
      name ← z_string (get_property "name" fields);
      _ ← z_literal BaseTemplate.py_object (get_property "py/object" fields);
      supported_kernels ← z_string (get_property "supported_kernels" fields);
      target ← z_string (get_property "target" fields);
      version ← z_string (get_property "version" fields);
      Some (BaseTemplate.mk metadata name supported_kernels target version)
  | _ => None
  end.

(** [z.array(BaseTemplateSchema)] *)
Definition DepotSchema_safeParse (input : Json) : option Depot :=
  match input with
  | JArray items => mapM BaseTemplateSchema_safeParse items
  | _ => None
  end.

Definition PyStateSchema_safeParse (input : option Json) : option PyState.t :=
  match input with
  | Some (JObject fields) =>
      metadata ← z_record_any (get_property "metadata" fields);
      name ← z_string (get_property "name" fields);
      supported_kernels ← z_string (get_property "supported_kernels" fields);
      system_files ← z_array_string (get_property "system_files" fields);
      target ← z_string (get_property "target" fields);
      user_files ← z_array_string (get_property "user_files" fields);
      version ← z_string (get_property "version" fields);
      Some (PyState.mk metadata name supported_kernels system_files target
                       user_files version)
  | _ => None
  end.

Definition ExternalTemplateSchema_safeParse (input : Json) : option ExternalTemplate :=
  match input with
  | JObject fields =>
      _ ← z_literal ExternalTemplate.py_object (get_property "py/object" fields);
      py_state ← PyStateSchema_safeParse (get_property "py/state" fields);
      Some (ExternalTemplate.mk py_state)
  | _ => None
  end.

(** A depot entry as the JSON value [JSON.stringify] writes for it and
    [JSON.parse] reads back. *)
Definition BaseTemplate_to_Json (item : BaseTemplate) : Json :=
  JObject
    [ ("metadata",
       JObject [("location", JString (Metadata.location (BaseTemplate.metadata item)))]);
      ("name", JString (BaseTemplate.name item));
      ("py/object", JString BaseTemplate.py_object);
      ("supported_kernels", JString (BaseTemplate.supported_kernels item));
      ("target", JString (BaseTemplate.target item));
      ("version", JString (BaseTemplate.version item)) ].

(** ** utils.ts *)

(** Represents a repository on GitHub.  A field is [None] when array
    destructuring found no element for it ([undefined]). *)
Module RepositoryIdentifier.
Record t := mk { owner : option string; repo : option string }.
End RepositoryIdentifier.
Abbreviation RepositoryIdentifier := RepositoryIdentifier.t.

(** [const [owner, repo] = parts]: the first two elements, [undefined]
    where the array is too short; further elements are ignored. *)
Definition destructure_owner_repo (parts : list string) : RepositoryIdentifier :=
  RepositoryIdentifier.mk (parts !! 0%nat) (parts !! 1%nat).

(** Convert a string to a repository identifier; an error is thrown when
    the string has no slash. *)
Definition toRepositoryIdentifier
    (owner_and_repo_name : string) : completion RepositoryIdentifier :=
  if negb (includes "/"%char owner_and_repo_name)
  then Throw (mkError ("Invalid repository name: " +:+ owner_and_repo_name))
  else Return (destructure_owner_repo (split "/"%char owner_and_repo_name)).

(** One asset of a release, with the fields the action reads. *)
Module Asset.
Record t := mk {
  id : Z;
  browser_download_url : string;
  updated_at : string;
  name : string
}.
End Asset.

(** A GitHub release, with the fields the action reads. *)
Module Release.
Record t := mk { assets : list Asset.t; prerelease : bool }.
End Release.
Abbreviation Release := Release.t.

(** A single asset of a release which appears to be a zip file. *)
Module DownloadableZip.
Record t := mk {
  asset_id : Z;
  download_url : string;
  updated_at : string;
  prerelease : bool;
  result : option BaseTemplate
}.
End DownloadableZip.
Abbreviation DownloadableZip := DownloadableZip.t.

(** The list of downloadable zip files of a release. *)
Definition getDownloadableZips (release : Release) : list DownloadableZip :=
  map (fun asset =>
         DownloadableZip.mk
           (Asset.id asset)
           (Asset.browser_download_url asset)
           (Asset.updated_at asset)
           (Release.prerelease release)
           None)
      (List.filter (fun asset => endsWith (Asset.name asset) ".zip")
                   (Release.assets release)).

Inductive IncludeStrategy : Type :=
| all
| stable_only
| prerelease_only.

(** The string literal an [IncludeStrategy] is at run time. *)
Definition IncludeStrategy_literal (strategy : IncludeStrategy) : string :=
  match strategy with
  | all => "all"
  | stable_only => "stable-only"
  | prerelease_only => "prerelease-only"
  end.

(** Get the include strategy from the input; an error is thrown when the
    input is not a valid include strategy. *)
Definition getIncludeStrategy (input : string) : completion IncludeStrategy :=
  if String.eqb input "all" then Return all
  else if String.eqb input "stable-only" then Return stable_only
  else if String.eqb input "prerelease-only" then Return prerelease_only
  else Throw (mkError ("Invalid include strategy: " +:+ input)).

(** Check if the zip should be included based on the include strategy. *)
Definition shouldIncludeZip
    (zip : DownloadableZip) (include_strategy : IncludeStrategy) : bool :=
  match include_strategy with
  | stable_only => negb (DownloadableZip.prerelease zip)
  | prerelease_only => DownloadableZip.prerelease zip
  | all => true
  end.

Section Utils.
Context {runtime : JsRuntime}.

(** [new Date(s)] *)
Definition new_Date (s : string) : Date := Date_parse s.

(** Check if the zip has been updated after the target date. *)
Definition hasBeenUpdatedAfter (zip : DownloadableZip) (target_date : Date) : bool :=
  Date_gt (new_Date (DownloadableZip.updated_at zip)) target_date.

(** Get the previous result from the depot map: [depot_map.get(url) ?? null]. *)
Definition getPreviousResult
    (zip : DownloadableZip) (depot_map : gmap string BaseTemplate)
    : option BaseTemplate :=
  depot_map !! DownloadableZip.download_url zip.

(** Apply the previous result to the zip file: [{ ...zip, result: ... }]. *)
Definition applyPreviousResult
    (zip : DownloadableZip) (depot_map : gmap string BaseTemplate)
    (depot_last_updated : Date) : DownloadableZip :=
  DownloadableZip.mk
    (DownloadableZip.asset_id zip)
    (DownloadableZip.download_url zip)
    (DownloadableZip.updated_at zip)
    (DownloadableZip.prerelease zip)
    (if hasBeenUpdatedAfter zip depot_last_updated
     then None
     else getPreviousResult zip depot_map).

End Utils.

(** Convert an external template to a base template. *)
Definition convertExternalTemplateToBaseTemplate
    (zip : DownloadableZip) (external_template : ExternalTemplate)
    : BaseTemplate :=
  let template_data := ExternalTemplate.py_state external_template in
  BaseTemplate.mk
    (Metadata.mk (DownloadableZip.download_url zip))
    (PyState.name template_data)
    (PyState.supported_kernels template_data)
    (PyState.target template_data)
    (PyState.version template_data).

(** *** JSON.stringify of a depot entry *)

Definition double_quote : ascii := "034"%char.
Definition backslash : ascii := "092"%char.

(** A lowercase hexadecimal digit. *)
Definition hex_digit (n : N) : ascii :=
  if (n <? 10)%N then ascii_of_N (48 + n) else ascii_of_N (87 + n).

(** How [JSON.stringify] writes one character inside a string literal. *)
Definition escape_char (c : ascii) : string :=
  let n := N_of_ascii c in
  if (n =? 8)%N then String backslash "b"
  else if (n =? 9)%N then String backslash "t"
  else if (n =? 10)%N then String backslash "n"
  else if (n =? 12)%N then String backslash "f"
  else if (n =? 13)%N then String backslash "r"
  else if (n =? 34)%N then String backslash (String double_quote "")
  else if (n =? 92)%N then String backslash (String backslash "")
  else if (n <? 32)%N then
    String backslash
      ("u00" +:+ String (hex_digit (n / 16)) (String (hex_digit (n mod 16)) ""))
  else String c "".

Fixpoint escape (s : string) : string :=
  match s with
  | EmptyString => EmptyString
  | String c rest => escape_char c +:+ escape rest
  end.

(** [JSON.stringify(s)] for a string [s]. *)
Definition JSON_quote (s : string) : string :=
  String double_quote (escape s +:+ String double_quote "").

(** [JSON.stringify(item)] for a depot entry: its keys in the order the
    schema and [convertExternalTemplateToBaseTemplate] create them. *)
Definition JSON_stringify (item : BaseTemplate) : string :=
  "{" +:+ JSON_quote "metadata" +:+ ":{" +:+ JSON_quote "location" +:+ ":"
      +:+ JSON_quote (Metadata.location (BaseTemplate.metadata item)) +:+ "},"
  +:+ JSON_quote "name" +:+ ":" +:+ JSON_quote (BaseTemplate.name item) +:+ ","
  +:+ JSON_quote "py/object" +:+ ":" +:+ JSON_quote BaseTemplate.py_object +:+ ","
  +:+ JSON_quote "supported_kernels" +:+ ":"
      +:+ JSON_quote (BaseTemplate.supported_kernels item) +:+ ","
  +:+ JSON_quote "target" +:+ ":" +:+ JSON_quote (BaseTemplate.target item) +:+ ","
  +:+ JSON_quote "version" +:+ ":" +:+ JSON_quote (BaseTemplate.version item)
  +:+ "}".

(** The value of a lowercase hexadecimal digit. *)
Definition hex_value (c : ascii) : option N :=
  let n := N_of_ascii c in
  if ((48 <=? n) && (n <=? 57))%N then Some (n - 48)%N
  else if ((97 <=? n) && (n <=? 102))%N then Some (n - 87)%N
  else None.

(** Reads one character of a string literal back from the text
    [escape_char] writes for it, and gives the rest of the text; [None]
    on a text that starts with no escaped character (a bare quote or
    control character, an unknown escape). *)
Definition unescape_char (text : string) : option (ascii * string) :=
  match text with
  | EmptyString => None
  | String c rest =>
      if Ascii.eqb c backslash then
        match rest with
        | String "b" rest => Some ("008"%char, rest)
        | String "t" rest => Some ("009"%char, rest)
        | String "n" rest => Some ("010"%char, rest)
        | String "f" rest => Some ("012"%char, rest)
        | String "r" rest => Some ("013"%char, rest)
        | String "u" (String "0" (String "0" (String high (String low rest)))) =>
            h ← hex_value high;
            l ← hex_value low;
            Some (ascii_of_N (16 * h + l), rest)
        | String e rest =>
            if Ascii.eqb e double_quote then Some (double_quote, rest)
            else if Ascii.eqb e backslash then Some (backslash, rest)
            else None
        | EmptyString => None
        end
      else if Ascii.eqb c double_quote || (N_of_ascii c <? 32)%N then None
      else Some (c, rest)
  end.

(** *** getCommitMessage *)

(** [new Map(entries)]: a later entry replaces an earlier one with its key. *)
Definition new_Map {V : Type} (entries : list (string * V)) : gmap string V :=
  fold_left (fun m entry => <[entry.1 := entry.2]> m) entries ∅.

(** The variables of the loop of [getCommitMessage]. *)
Record Tally := mkTally {
  old_depot_map : gmap string BaseTemplate;
  added_count : nat;
  updated_count : nat
}.

(** One iteration of [for (const new_item of new_depot)]. *)
Definition tally_item (st : Tally) (new_item : BaseTemplate) : Tally :=
  let location := Metadata.location (BaseTemplate.metadata new_item) in
  let old_item := old_depot_map st !! location in
  let added :=
    match old_item with
    | None => S (added_count st)
    | Some _ => added_count st
    end in
  let updated :=
    match old_item with
    | None => updated_count st
    | Some old_item =>
        if negb (String.eqb (JSON_stringify old_item) (JSON_stringify new_item))
        then S (updated_count st)
        else updated_count st
    end in
  mkTally (delete location (old_depot_map st)) added updated.

(** The state of the loop when it ends. *)
Definition tally (old_depot new_depot : Depot) : Tally :=
  fold_left tally_item new_depot
    (mkTally
       (new_Map (map (fun item =>
                        (Metadata.location (BaseTemplate.metadata item), item))
                     old_depot))
       0%nat 0%nat).

(** What reading [.version] of [undefined] throws. *)
Definition TypeError_version : Error :=
  mkError "Cannot read properties of undefined (reading 'version')".

(** Get the commit message for the depot update. *)
Definition getCommitMessage (old_depot new_depot : Depot) : completion string :=
  let st := tally old_depot new_depot in
  let removed_count := size (old_depot_map st) in
  if (added_count st =? 1)%nat && (updated_count st =? 0)%nat
     && (removed_count =? 0)%nat
  then
    match new_depot !! 0%nat with
    | Some first => Return ("Release version " +:+ BaseTemplate.version first)
    | None => Throw TypeError_version
    end
  else Return "Update one or more version(s)".


(** ** main.ts *)

(** *** The GitHub client *)

Definition base64_alphabet : string :=
  "ABCDEFGHIJKLMNOPQRSTUVWXYZabcdefghijklmnopqrstuvwxyz0123456789+/".

Definition base64_digit (n : N) : ascii :=
  match String.get (N.to_nat n) base64_alphabet with
  | Some c => c
  | None => "="%char
  end.

(** [Buffer.from(s).toString('base64')]: three bytes become four digits,
    the last group is padded with [=]. *)
Fixpoint base64 (s : string) : string :=
  match s with
  | EmptyString => EmptyString
  | String a EmptyString =>
      let x := N_of_ascii a in
      String (base64_digit (x / 4))
        (String (base64_digit (x mod 4 * 16)) "==")
  | String a (String b EmptyString) =>
      let x := N_of_ascii a in
      let y := N_of_ascii b in
      String (base64_digit (x / 4))
        (String (base64_digit (x mod 4 * 16 + y / 16))
           (String (base64_digit (y mod 16 * 4)) "="))
  | String a (String b (String c rest)) =>
      let x := N_of_ascii a in
      let y := N_of_ascii b in
      let z := N_of_ascii c in
      String (base64_digit (x / 4))
        (String (base64_digit (x mod 4 * 16 + y / 16))
           (String (base64_digit (y mod 16 * 4 + z / 64))
              (String (base64_digit (z mod 64)) (base64 rest))))
  end.

(** The [status] property of a caught value, when it has one. *)
Inductive StatusProperty : Type :=
| status_number (n : Z)
| status_not_a_number.

(** A value caught by [catch (error)], with what the handlers read of it:
    [error instanceof Error], [error.status] and [String(error)]. *)
Record Thrown := mkThrown {
  instanceof_Error : bool;
  status : option StatusProperty;
  String_of : string
}.

(** One entry of the [tree] of [git.createTree]. *)
Record TreeEntry := mkTreeEntry {
  entry_path : string;
  entry_mode : string;
  entry_type : string;
  entry_content : string
}.

(** The calls [pushFile] makes on the client, with their parameters. *)
Inductive Request : Type :=
| repos_getBranch (owner repo : option string) (branch : string)
| repos_createOrUpdateFileContents
    (owner repo : option string) (branch path message content : string)
    (sha : option string)
| git_createTree
    (owner repo : option string) (base_tree : option string)
    (tree : list TreeEntry)
| git_createCommit
    (owner repo : option string) (message tree : string)
    (parents : list string)
| git_createRef (owner repo : option string) (ref sha : string).

(** The [data] of a response, with the property [pushFile] reads. *)
Record ResponseData := mkResponseData { data_sha : string }.

(** How an awaited call settles. *)
Inductive Response : Type :=
| Resolved (data : ResponseData)
| Rejected (error : Thrown).

Inductive LogLevel : Type :=
| core_info
| core_warning
| core_error.

(** An [async] function over the client: it returns, or awaits a request
    and goes on with the response, or writes to the log and goes on. *)
Inductive Action (A : Type) : Type :=
| Done (value : A)
| Await (request : Request) (continue : Response -> Action A)
| Log (level : LogLevel) (text : string) (continue : Action A).
Arguments Done {A} value.
Arguments Await {A} request continue.
Arguments Log {A} level text continue.

(** The test of the [catch] block of [pushFile]. *)
Definition is_not_found (error : Thrown) : bool :=
  instanceof_Error error
  && match status error with
     | Some (status_number n) => n =? 404
     | _ => false
     end.

(** The inner [try] of [pushFile]: the new orphan branch. *)
Definition createOrphanBranch
    (owner repo : option string) (branch path content commit_message : string)
    : Action bool :=
  let failed error :=
    Log core_error
      ("Failed to create the new orphan branch. " +:+ String_of error)
      (Done false) in
  Await (git_createTree owner repo None
           [mkTreeEntry path "100644" "blob" content])
    (fun response =>
       match response with
       | Rejected error => failed error
       | Resolved treeSHA =>
           Await (git_createCommit owner repo commit_message
                    (data_sha treeSHA) [])
             (fun response =>
                match response with
                | Rejected error => failed error
                | Resolved newCommit =>
                    Await (git_createRef owner repo
                             ("refs/heads/" +:+ branch) (data_sha newCommit))
                      (fun response =>
                         match response with
                         | Rejected error => failed error
                         | Resolved _ => Done true
                         end)
                end)
       end).

(** The [catch] block of the outer [try] of [pushFile]. *)
Definition pushFile_catch
    (owner repo : option string) (branch path content commit_message : string)
    (error : Thrown) : Action bool :=
  if is_not_found error then
    Log core_info
      ("Branch '" +:+ branch +:+ "' does not exist. Creating a new orphan branch.")
      (createOrphanBranch owner repo branch path content commit_message)
  else
    Log core_error
      ("Failed to check if branch '" +:+ branch +:+ "' exists. "
       +:+ String_of error)
      (Done false).

Definition pushFile
    (rid : RepositoryIdentifier) (branch path content commit_message : string)
    (old_sha : option string) : Action bool :=
  let owner := RepositoryIdentifier.owner rid in
  let repo := RepositoryIdentifier.repo rid in
  Await (repos_getBranch owner repo branch)
    (fun response =>
       match response with
       | Rejected error =>
           pushFile_catch owner repo branch path content commit_message error
       | Resolved _ =>
           Log core_info ("Branch '" +:+ branch +:+ "' already exists.")
             (Await (repos_createOrUpdateFileContents owner repo branch path
                       commit_message (base64 content) old_sha)
                (fun response =>
                   match response with
                   | Rejected error =>
                       pushFile_catch owner repo branch path content
                         commit_message error
                   | Resolved _ => Done true
                   end))
       end).

(** What an observer of a run sees. *)
Inductive Event : Type :=
| Requested (request : Request) (response : Response)
| Logged (level : LogLevel) (text : string).

(** The GitHub side: it answers a request and moves to its next state. *)
Class GitHub (World : Type) : Type := {
  respond : World -> Request -> Response * World
}.

(** Running an action against GitHub: the events in order, the state
    GitHub is left in, and the value returned. *)
Fixpoint perform {A World : Type} `{!GitHub World}
    (action : Action A) (world : World) : list Event * World * A :=
  match action with
  | Done value => ([], world, value)
  | Await request continue =>
      let (response, world') := respond world request in
      let '(events, final, value) := perform (continue response) world' in
      (Requested request response :: events, final, value)
  | Log level text continue =>
      let '(events, final, value) := perform continue world in
      (Logged level text :: events, final, value)
  end.

(** The requests of a run, in order. *)
Definition requests (events : list Event) : list Request :=
  omap (fun event =>
          match event with
          | Requested request _ => Some request
          | Logged _ _ => None
          end) events.

(** The steps that create the orphan branch. *)
Definition is_bootstrap_step (request : Request) : bool :=
  match request with
  | git_createTree _ _ _ _ | git_createCommit _ _ _ _ _ | git_createRef _ _ _ _ => true
  | _ => false
  end.

(** *** The pipeline of [run] *)

Module FileContent.
Record t := mk { sha : string; content : string; last_modified : Date }.
End FileContent.
Abbreviation FileContent := FileContent.t.

Section Main.
Context {runtime : JsRuntime}.

(** [parseDepot]: [null] when the content is no JSON or no depot (the
    warnings it logs are left out). *)
Definition parseDepot (content : string) : option Depot :=
  JSON_parse content ≫= DepotSchema_safeParse.

Definition parseExternalTemplate (content : string) : option ExternalTemplate :=
  JSON_parse content ≫= ExternalTemplateSchema_safeParse.

(** [curr_depot_file?.last_modified ?? new Date(0)] *)
Definition curr_depot_last_updated (curr_depot_file : option FileContent) : Date :=
  match curr_depot_file with
  | Some file => FileContent.last_modified file
  | None => Some 0
  end.

(** [parseDepot(curr_depot_file?.content ?? '[]') ?? []] *)
Definition curr_depot (curr_depot_file : option FileContent) : Depot :=
  default []
    (parseDepot
       (match curr_depot_file with
        | Some file => FileContent.content file
        | None => "[]"
        end)).

(** [new Map(curr_depot.map(item => [item.metadata.location, item]))] *)
Definition curr_depot_map (curr_depot_file : option FileContent)
    : gmap string BaseTemplate :=
  new_Map (map (fun item => (Metadata.location (BaseTemplate.metadata item), item))
               (curr_depot curr_depot_file)).

(** The condition under which the second filter of [run] removes a zip
    ("the zips that we checked before and were not templates"). *)
Definition removed_before_fetch
    (curr_depot_file : option FileContent) (zip : DownloadableZip) : bool :=
  hasBeenUpdatedAfter zip (curr_depot_last_updated curr_depot_file)
  && bool_decide (getPreviousResult zip (curr_depot_map curr_depot_file) = None)
  && bool_decide (curr_depot_file ≠ None).

(** The [zips] of [run]. *)
Definition run_zips
    (include_strategy : IncludeStrategy)
    (curr_depot_file : option FileContent)
    (releases : list Release) : list DownloadableZip :=
  map (fun zip =>
         applyPreviousResult zip (curr_depot_map curr_depot_file)
           (curr_depot_last_updated curr_depot_file))
    (List.filter (fun zip => negb (removed_before_fetch curr_depot_file zip))
       (List.filter (fun zip => shouldIncludeZip zip include_strategy)
          (concat (map getDownloadableZips releases)))).

(** The zips [createBaseTemplate] downloads: those of [zips] whose
    [result] is [null] (counted by [num_of_fetching]). *)
Definition run_fetched
    (include_strategy : IncludeStrategy)
    (curr_depot_file : option FileContent)
    (releases : list Release) : list DownloadableZip :=
  List.filter (fun zip => bool_decide (DownloadableZip.result zip = None))
    (run_zips include_strategy curr_depot_file releases).

End Main.

(** ** Earlier revisions of main.ts

    [toRepositoryIdentifier] and [getCommitMessage] as they were before
    utils.ts was split off, and the filter of [run] as it was first
    written. *)

Module Legacy.

(** [toRepositoryIdentifier] without the check for a slash. *)
Definition toRepositoryIdentifier (owner_and_repo_name : string)
    : RepositoryIdentifier :=
  destructure_owner_repo (split "/"%char owner_and_repo_name).

(** [getCommitMessage] by the difference of the lengths. *)
Definition getCommitMessage (old_depot new_depot : Depot) : completion string :=
  let updated_count :=
    Z.of_nat (length new_depot) - Z.of_nat (length old_depot) in
  let old_depot_list :=
    map (fun item => Metadata.location (BaseTemplate.metadata item)) old_depot in
  let added_templates :=
    List.filter
      (fun item =>
         negb (bool_decide
                 (Metadata.location (BaseTemplate.metadata item) ∈ old_depot_list)))
      new_depot in
  if (length added_templates =? 1)%nat then
    match added_templates !! 0%nat with
    | Some first => Return ("Release version " +:+ BaseTemplate.version first)
    | None => Throw TypeError_version
    end
  else Return ("Update " +:+ pretty updated_count +:+ " version(s)").

(** The second filter of [run] in the first revision that has it: the
    same test without [curr_depot_file !== null]. *)
Definition removed_before_fetch {runtime : JsRuntime}
    (curr_depot_file : option FileContent) (zip : DownloadableZip) : bool :=
  hasBeenUpdatedAfter zip (curr_depot_last_updated curr_depot_file)
  && bool_decide (getPreviousResult zip (curr_depot_map curr_depot_file) = None).

End Legacy.

(** ** A runtime for the worked examples

    GitHub writes every timestamp as [YYYY-MM-DDTHH:MM:SSZ]; the example
    runtime reads exactly this form, as [new Date] does, and answers
    [JSON.parse] from a table of known documents. *)

(** The value of a decimal digit. *)
Definition digit_value (c : ascii) : option Z :=
  let n := Z.of_N (N_of_ascii c) in
  if (48 <=? n) && (n <=? 57) then Some (n - 48) else None.

(** Reads [count] decimal digits from the front of [s]. *)
Fixpoint read_digits (count : nat) (acc : Z) (s : string) : option (Z * string) :=
  match count with
  | O => Some (acc, s)
  | S count' =>
      match s with
      | EmptyString => None
      | String c rest =>
          d ← digit_value c;
          read_digits count' (10 * acc + d) rest
      end
  end.

(** Reads the character [c] from the front of [s]. *)
Definition read_char (c : ascii) (s : string) : option string :=
  match s with
  | String a rest => if Ascii.eqb a c then Some rest else None
  | EmptyString => None
  end.

Definition is_leap_year (y : Z) : bool :=
  ((y mod 4 =? 0) && negb (y mod 100 =? 0)) || (y mod 400 =? 0).

Definition days_in_month (y m : Z) : Z :=
  if m =? 2 then (if is_leap_year y then 29 else 28)
  else if (m =? 4) || (m =? 6) || (m =? 9) || (m =? 11) then 30
  else 31.

(** Days from 1970-01-01 to the given date of the proleptic Gregorian
    calendar. *)
Definition days_from_civil (y m d : Z) : Z :=
  let y' := if m <=? 2 then y - 1 else y in
  let era := y' / 400 in
  let year_of_era := y' - era * 400 in
  let day_of_year := (153 * ((m + 9) mod 12) + 2) / 5 + d - 1 in
  let day_of_era :=
    year_of_era * 365 + year_of_era / 4 - year_of_era / 100 + day_of_year in
  era * 146097 + day_of_era - 719468.

(** The time value of [YYYY-MM-DDTHH:MM:SSZ], [None] for anything else. *)
Definition parse_github_timestamp (s : string) : Date :=
  '(year, s) ← read_digits 4 0 s;
  s ← read_char "-" s;
  '(month, s) ← read_digits 2 0 s;
  s ← read_char "-" s;
  '(day, s) ← read_digits 2 0 s;
  s ← read_char "T" s;
  '(hour, s) ← read_digits 2 0 s;
  s ← read_char ":" s;
  '(minute, s) ← read_digits 2 0 s;
  s ← read_char ":" s;
  '(second, s) ← read_digits 2 0 s;
  s ← read_char "Z" s;
  if bool_decide (s = "")
     && (1 <=? month) && (month <=? 12)
     && (1 <=? day) && (day <=? days_in_month year month)
     && (hour <=? 23) && (minute <=? 59) && (second <=? 59)
  then Some (((days_from_civil year month day * 24 + hour) * 60 + minute) * 60000
             + second * 1000)
  else None.

(** The example runtime: [documents] lists the JSON texts it can parse. *)
Definition example_runtime (documents : list (string * Json)) : JsRuntime :=
  {| Date_parse := parse_github_timestamp;
     JSON_parse := fun text => snd <$> List.find (fun doc => String.eqb doc.1 text) documents |}.


(** The zip, the description and the entries of the unit tests. *)
Definition example_zip : DownloadableZip :=
  DownloadableZip.mk 1 "https://example.com/download" "2021-01-01T00:00:00Z"
    false None.

Definition example_description_json : Json :=
  JObject
    [ ("py/state",
       JObject
         [ ("metadata", JObject []);
           ("name", JString "example");
           ("supported_kernels", JString "4.1.2");
           ("system_files", JArray [JString "system.pros"]);
           ("target", JString "v5");
           ("user_files", JArray [JString "user.pros"]);
           ("version", JString "1.0.0") ]);
      ("py/object", JString ExternalTemplate.py_object) ].

Definition example_description : ExternalTemplate :=
  ExternalTemplate.mk
    (PyState.mk [] "example" "4.1.2" ["system.pros"] "v5" ["user.pros"] "1.0.0").

(** A depot entry of the template [example] for kernel [4.1.2] on [v5]. *)
Definition example_entry (location version : string) : BaseTemplate :=
  BaseTemplate.mk (Metadata.mk location) "example" "4.1.2" "v5" version.

(** A second run of the action.  The depot file, written on 2021-01-01,
    holds the template of release 1.0.0.  Since then release 1.0.1 was
    published with its template; release 1.0.0 also carries a zip of
    documents, which is no template and so has no entry. *)
Definition released_1_0_0 : BaseTemplate :=
  example_entry "https://example.com/download/1.0.0/example@1.0.0.zip" "1.0.0".

Definition second_run_depot_text : string :=
  "[" +:+ JSON_stringify released_1_0_0 +:+ "]".

Definition second_run_runtime : JsRuntime :=
  example_runtime
    [ ("[]", JArray []);
      (second_run_depot_text, JArray [BaseTemplate_to_Json released_1_0_0]) ].

Definition second_run_depot_file : FileContent :=
  FileContent.mk "3b18e512dba79e4c8300dd08aeb37f8e728b8dad" second_run_depot_text
    (parse_github_timestamp "2021-01-01T00:00:00Z").

Definition template_1_0_1_asset : Asset.t :=
  Asset.mk 11 "https://example.com/download/1.0.1/example@1.0.1.zip"
    "2021-03-01T00:00:00Z" "example@1.0.1.zip".

Definition template_1_0_0_asset : Asset.t :=
  Asset.mk 7 "https://example.com/download/1.0.0/example@1.0.0.zip"
    "2020-12-31T23:00:00Z" "example@1.0.0.zip".

Definition documents_asset : Asset.t :=
  Asset.mk 8 "https://example.com/download/1.0.0/documents.zip"
    "2020-12-31T23:00:00Z" "documents.zip".

Definition second_run_releases : list Release :=
  [ Release.mk [template_1_0_1_asset] false;
    Release.mk [template_1_0_0_asset; documents_asset] false ].

(** A GitHub for the worked examples: it knows its refs, grants every
    write, and while [outage] is set rejects every request with it. *)
Record MockGitHub := mkMockGitHub {
  refs : list string;
  outage : option Thrown
}.

(** The rejection of a request for something that does not exist. *)
Definition http_not_found : Thrown :=
  mkThrown true (Some (status_number 404)) "HttpError: Not Found".

(** The rejection of a request the server failed to serve. *)
Definition http_server_error : Thrown :=
  mkThrown true (Some (status_number 500)) "HttpError: Server Error".

Definition mock_respond (world : MockGitHub) (request : Request)
    : Response * MockGitHub :=
  match outage world with
  | Some error => (Rejected error, world)
  | None =>
      match request with
      | repos_getBranch _ _ branch =>
          if bool_decide ("refs/heads/" +:+ branch ∈ refs world)
          then (Resolved (mkResponseData "branch"), world)
          else (Rejected http_not_found, world)
      | repos_createOrUpdateFileContents _ _ _ _ _ _ _ =>
          (Resolved (mkResponseData "file"), world)
      | git_createTree _ _ _ _ => (Resolved (mkResponseData "tree-1"), world)
      | git_createCommit _ _ _ _ _ => (Resolved (mkResponseData "commit-1"), world)
      | git_createRef _ _ ref _ =>
          (Resolved (mkResponseData "ref"), mkMockGitHub (ref :: refs world) None)
      end
  end.

#[global] Instance mock_github : GitHub MockGitHub := {| respond := mock_respond |}.

(** ** The vocabulary of the specification *)

(** [s] contains the character [c]. *)
Definition contains (c : ascii) (s : string) : Prop :=
  ∃ before after, s = before +:+ String c after.

(** The substring of [s] before the first [c] (all of [s] without one). *)
Fixpoint substring_before_first (c : ascii) (s : string) : string :=
  match s with
  | EmptyString => EmptyString
  | String a rest =>
      if Ascii.eqb a c then EmptyString
      else String a (substring_before_first c rest)
  end.

(** The substring of [s] after the first [c] (empty without one). *)
Fixpoint substring_after_first (c : ascii) (s : string) : string :=
  match s with
  | EmptyString => EmptyString
  | String a rest =>
      if Ascii.eqb a c then rest else substring_after_first c rest
  end.

(** The runs of the orphan-branch bootstrap: a tree with exactly the one
    file, a commit of that tree without parents, the ref of the branch at
    that commit; the run stops with [false] at the first step GitHub
    rejects and ends with [true] after the third. *)
Inductive OrphanBranchRun
    (owner repo : option string) (branch path content commit_message : string)
    : list Event -> bool -> Prop :=
| orphan_tree_rejected error :
    OrphanBranchRun owner repo branch path content commit_message
      [ Requested
          (git_createTree owner repo None [mkTreeEntry path "100644" "blob" content])
          (Rejected error);
        Logged core_error
          ("Failed to create the new orphan branch. " +:+ String_of error) ]
      false
| orphan_commit_rejected treeSHA error :
    OrphanBranchRun owner repo branch path content commit_message
      [ Requested
          (git_createTree owner repo None [mkTreeEntry path "100644" "blob" content])
          (Resolved treeSHA);
        Requested
          (git_createCommit owner repo commit_message (data_sha treeSHA) [])
          (Rejected error);
        Logged core_error
          ("Failed to create the new orphan branch. " +:+ String_of error) ]
      false
| orphan_ref_rejected treeSHA newCommit error :
    OrphanBranchRun owner repo branch path content commit_message
      [ Requested
          (git_createTree owner repo None [mkTreeEntry path "100644" "blob" content])
          (Resolved treeSHA);
        Requested
          (git_createCommit owner repo commit_message (data_sha treeSHA) [])
          (Resolved newCommit);
        Requested
          (git_createRef owner repo ("refs/heads/" +:+ branch) (data_sha newCommit))
          (Rejected error);
        Logged core_error
          ("Failed to create the new orphan branch. " +:+ String_of error) ]
      false
| orphan_branch_created treeSHA newCommit ref_data :
    OrphanBranchRun owner repo branch path content commit_message
      [ Requested
          (git_createTree owner repo None [mkTreeEntry path "100644" "blob" content])
          (Resolved treeSHA);
        Requested
          (git_createCommit owner repo commit_message (data_sha treeSHA) [])
          (Resolved newCommit);
        Requested
          (git_createRef owner repo ("refs/heads/" +:+ branch) (data_sha newCommit))
          (Resolved ref_data) ]
      true.

(** The secondary rule of the cache resolver in the words of the
    specification: a candidate is excluded when it is not newer than the
    depot, has no previous result, and a previous depot file was
    obtained. *)
Definition known_not_a_template {runtime : JsRuntime}
    (curr_depot_file : option FileContent) (zip : DownloadableZip) : bool :=
  negb (hasBeenUpdatedAfter zip (curr_depot_last_updated curr_depot_file))
  && bool_decide (getPreviousResult zip (curr_depot_map curr_depot_file) = None)
  && bool_decide (curr_depot_file ≠ None).

(** [name] ends in the zip file extension. *)
Definition zip_named (name : string) : Prop := ∃ stem, name = stem +:+ ".zip".

(** The candidates of an asset list: one per zip-named asset, in the order
    of the assets, the others dropped. *)
Inductive Candidates (prerelease : bool)
    : list Asset.t -> list DownloadableZip -> Prop :=
| candidates_nil : Candidates prerelease [] []
| candidates_zip asset assets zips :
    zip_named (Asset.name asset) ->
    Candidates prerelease assets zips ->
    Candidates prerelease (asset :: assets)
      (DownloadableZip.mk (Asset.id asset) (Asset.browser_download_url asset)
         (Asset.updated_at asset) prerelease None :: zips)
| candidates_other asset assets zips :
    ¬ zip_named (Asset.name asset) ->
    Candidates prerelease assets zips ->
    Candidates prerelease (asset :: assets) zips.

(** The old depot indexed by [metadata.location]. *)
Definition index_by_location (depot : Depot) : gmap string BaseTemplate :=
  new_Map (map (fun item => (Metadata.location (BaseTemplate.metadata item), item))
               depot).

(** The locations of the entries of a depot. *)
Definition locations (depot : Depot) : list string :=
  map (fun item => Metadata.location (BaseTemplate.metadata item)) depot.

(** A new entry is added: the old depot has no entry at its location. *)
Definition is_added (old_depot : Depot) (new_item : BaseTemplate) : bool :=
  bool_decide
    (Metadata.location (BaseTemplate.metadata new_item) ∉ locations old_depot).

(** A new entry is updated: the old depot has an entry at its location,
    and the two differ in content. *)
Definition is_updated (old_depot : Depot) (new_item : BaseTemplate) : bool :=
  match index_by_location old_depot
          !! Metadata.location (BaseTemplate.metadata new_item) with
  | Some old_item => bool_decide (old_item ≠ new_item)
  | None => false
  end.

(** The locations that are removed: those of the old depot at which the
    new depot has no entry. *)
Definition removed_locations (old_depot new_depot : Depot) : gset string :=
  list_to_set (locations old_depot) ∖ list_to_set (locations new_depot).

(** ** main.ts: the whole action

    The functions of main.ts that talk to GitHub, and [run].  A program is
    a tree of the requests it awaits and of the results it gives the
    workflow ([core.setOutput], [core.setFailed]); the lines it writes to
    the log are left out of this tree. *)

(** What the action takes from Node and its packages besides [JsRuntime]:
    the decoder behind [Buffer.from(s, 'base64').toString()] and the
    reader behind [new AdmZip(Buffer.from(data)).getEntry(name)]. *)
Inductive ArchiveEntry : Type :=
| archive_throws (error : Thrown)
| entry_null
| entry_data (text : string).

Class NodeRuntime : Type := {
  Buffer_from_base64 : string -> string;
  AdmZip_getEntry : string -> string -> ArchiveEntry
}.

(** The [data] of [repos.getContent]: an array for a directory, else an
    object with its [type], [sha] and base64 [content]. *)
Inductive ContentData : Type :=
| content_array
| content_object (type sha content : string).

(** One commit of [repos.listCommits], with what is read of it:
    [commit.committer?.date]. *)
Record CommitItem := mkCommitItem { committer_date : option string }.

(** The [data] of [repos.getReleaseAsset]. *)
Inductive AssetData : Type :=
| asset_ArrayBuffer (bytes : string)
| asset_not_ArrayBuffer.

(** The calls of the action on the client, each with the type of the
    [data] of its response. *)
Inductive Api : Type -> Type :=
| repos_getContent (owner repo : option string) (path ref : string)
    : Api ContentData
| repos_listCommits (owner repo : option string) (path sha : string) (per_page : Z)
    : Api (list CommitItem)
| repos_listReleases (owner repo : option string) : Api (list Release)
| repos_getReleaseAsset (owner repo : option string) (asset_id : Z) (Accept : string)
    : Api AssetData
| push_request (request : Request) : Api ResponseData.

(** How an awaited call settles. *)
Inductive Settled (D : Type) : Type :=
| Granted (data : D)
| Failed (error : Thrown).
Arguments Granted {D} data.
Arguments Failed {D} error.

(** What the action gives the workflow. *)
Inductive Output : Type :=
| core_setOutput (name value : string)
| core_setFailed (message : string).

Inductive Program (A : Type) : Type :=
| Finish (value : A)
| Call {D : Type} (request : Api D) (continue : Settled D -> Program A)
| Emit (output : Output) (continue : Program A).
Arguments Finish {A} value.
Arguments Call {A D} request continue.
Arguments Emit {A} output continue.

(** [const x = await first; rest(x)] *)
Fixpoint and_then {A B : Type} (first : Program A) (rest : A -> Program B)
    : Program B :=
  match first with
  | Finish value => rest value
  | Call request continue =>
      Call request (fun settled => and_then (continue settled) rest)
  | Emit output continue => Emit output (and_then continue rest)
  end.

(** [for (const item of items) results.push(await f(item))] *)
Fixpoint for_each {A B : Type} (items : list A) (f : A -> Program B)
    : Program (list B) :=
  match items with
  | [] => Finish []
  | item :: rest =>
      and_then (f item)
        (fun result =>
           and_then (for_each rest f) (fun results => Finish (result :: results)))
  end.

Definition to_Response (settled : Settled ResponseData) : Response :=
  match settled with
  | Granted data => Resolved data
  | Failed error => Rejected error
  end.

(** An [Action] as a part of a program: its requests and its result,
    without its log lines. *)
Fixpoint await_Action {A : Type} (action : Action A) : Program A :=
  match action with
  | Done value => Finish value
  | Await request continue =>
      Call (push_request request)
        (fun settled => await_Action (continue (to_Response settled)))
  | Log _ _ continue => await_Action continue
  end.

(** What an observer of a program sees. *)
Inductive Observation : Type :=
| Called {D : Type} (request : Api D) (settled : Settled D)
| Emitted (output : Output).

(** The GitHub side of a program. *)
Class GitHubApi (World : Type) : Type := {
  settle : forall {D : Type}, World -> Api D -> Settled D * World
}.

Fixpoint execute {A World : Type} `{!GitHubApi World}
    (program : Program A) (world : World) : list Observation * World * A :=
  match program with
  | Finish value => ([], world, value)
  | Call request continue =>
      let (settled, world') := settle world request in
      let '(events, final, value) := execute (continue settled) world' in
      (Called request settled :: events, final, value)
  | Emit output continue =>
      let '(events, final, value) := execute continue world in
      (Emitted output :: events, final, value)
  end.

(** The ids of the assets a run asked for, in order. *)
Definition assets_requested (events : list Observation) : list Z :=
  omap (fun event =>
          match event with
          | Called (repos_getReleaseAsset _ _ asset_id _) _ => Some asset_id
          | _ => None
          end) events.

(** The requests of [pushFile] in a run, in order. *)
Definition pushes_requested (events : list Observation) : list Request :=
  omap (fun event =>
          match event with
          | Called (push_request request) _ => Some request
          | _ => None
          end) events.

(** What a run gave the workflow, in order. *)
Definition outputs (events : list Observation) : list Output :=
  omap (fun event =>
          match event with
          | Emitted output => Some output
          | Called _ _ => None
          end) events.

(** The number of requests of a run. *)
Definition calls (events : list Observation) : nat :=
  length (List.filter (fun event =>
                         match event with
                         | Called _ _ => true
                         | Emitted _ => false
                         end) events).

(** The inputs of the action and the environment of the process. *)
Record Environment := mkEnvironment {
  core_getInput : string -> string;
  process_env : string -> option string
}.

(** [a || b || ... || '']: the first operand that is a non-empty string. *)
Fixpoint first_truthy (operands : list (option string)) : string :=
  match operands with
  | [] => ""
  | Some s :: rest => if String.eqb s "" then first_truthy rest else s
  | None :: rest => first_truthy rest
  end.

(** What [toISOString] throws for an invalid date. *)
Definition RangeError_time_value : Error := mkError "Invalid time value".

(** A line break. *)
Definition newline : string := String "010"%char "".

(** One entry of [JSON.stringify(depot, null, 2)]. *)
Definition JSON_stringify_entry_indented (item : BaseTemplate) : string :=
  "  {" +:+ newline
  +:+ "    " +:+ JSON_quote "metadata" +:+ ": {" +:+ newline
  +:+ "      " +:+ JSON_quote "location" +:+ ": "
      +:+ JSON_quote (Metadata.location (BaseTemplate.metadata item)) +:+ newline
  +:+ "    }," +:+ newline
  +:+ "    " +:+ JSON_quote "name" +:+ ": "
      +:+ JSON_quote (BaseTemplate.name item) +:+ "," +:+ newline
  +:+ "    " +:+ JSON_quote "py/object" +:+ ": "
      +:+ JSON_quote BaseTemplate.py_object +:+ "," +:+ newline
  +:+ "    " +:+ JSON_quote "supported_kernels" +:+ ": "
      +:+ JSON_quote (BaseTemplate.supported_kernels item) +:+ "," +:+ newline
  +:+ "    " +:+ JSON_quote "target" +:+ ": "
      +:+ JSON_quote (BaseTemplate.target item) +:+ "," +:+ newline
  +:+ "    " +:+ JSON_quote "version" +:+ ": "
      +:+ JSON_quote (BaseTemplate.version item) +:+ newline
  +:+ "  }".

(** The entries of a non-empty depot, one after the other. *)
Fixpoint JSON_stringify_entries (first : BaseTemplate) (rest : Depot) : string :=
  match rest with
  | [] => JSON_stringify_entry_indented first
  | next :: rest =>
      JSON_stringify_entry_indented first +:+ "," +:+ newline
      +:+ JSON_stringify_entries next rest
  end.

(** [JSON.stringify(depot, null, 2)] *)
Definition JSON_stringify_depot (depot : Depot) : string :=
  match depot with
  | [] => "[]"
  | first :: rest =>
      "[" +:+ newline +:+ JSON_stringify_entries first rest +:+ newline +:+ "]"
  end.

Section WholeAction.
Context {runtime : JsRuntime} {node : NodeRuntime}.

(** [getFileContent]: the file at [path] in [branch] with the date of
    the last commit that changed it, [null] when anything fails. *)
Definition getFileContent
    (rid : RepositoryIdentifier) (branch path : string)
    : Program (option FileContent) :=
  Call (repos_getContent (RepositoryIdentifier.owner rid)
          (RepositoryIdentifier.repo rid) path branch)
    (fun response =>
       match response with
       | Failed _ => Finish None
       | Granted content_array => Finish None
       | Granted (content_object type sha content) =>
           if negb (String.eqb type "file") then Finish None
           else
             let content := Buffer_from_base64 content in
             Call (repos_listCommits (RepositoryIdentifier.owner rid)
                     (RepositoryIdentifier.repo rid) path branch 1)
               (fun commits =>
                  match commits with
                  | Failed _ => Finish None
                  | Granted [] => Finish None
                  | Granted (first :: _) =>
                      let last_modified :=
                        match committer_date first with
                        | Some raw_date =>
                            if String.eqb raw_date "" then Some 0
                            else new_Date raw_date
                        | None => Some 0
                        end in
                      Finish (Some (FileContent.mk sha content last_modified))
                  end)
       end).

(** [listReleases]: the releases, [null] when the request fails. *)
Definition listReleases (rid : RepositoryIdentifier)
    : Program (option (list Release)) :=
  Call (repos_listReleases (RepositoryIdentifier.owner rid)
          (RepositoryIdentifier.repo rid))
    (fun response =>
       match response with
       | Granted data => Finish (Some data)
       | Failed _ => Finish None
       end).

(** [getExternalTemplateFromZip]: the validated content of
    [template.pros] in the asset, [null] when anything fails. *)
Definition getExternalTemplateFromZip
    (rid : RepositoryIdentifier) (zip : DownloadableZip)
    : Program (option ExternalTemplate) :=
  Call (repos_getReleaseAsset (RepositoryIdentifier.owner rid)
          (RepositoryIdentifier.repo rid) (DownloadableZip.asset_id zip)
          "application/octet-stream")
    (fun response =>
       match response with
       | Failed _ => Finish None
       | Granted asset_not_ArrayBuffer => Finish None
       | Granted (asset_ArrayBuffer data) =>
           match AdmZip_getEntry data "template.pros" with
           | archive_throws _ => Finish None
           | entry_null => Finish None
           | entry_data text => Finish (parseExternalTemplate text)
           end
       end).

(** [createBaseTemplate]: the previous result of the zip when it has one,
    else the template fetched from the asset and converted. *)
Definition createBaseTemplate
    (rid : RepositoryIdentifier) (zip : DownloadableZip)
    : Program (option BaseTemplate) :=
  match DownloadableZip.result zip with
  | Some result => Finish (Some result)
  | None =>
      and_then (getExternalTemplateFromZip rid zip)
        (fun template =>
           Finish
             (match template with
              | Some template =>
                  Some (convertExternalTemplateToBaseTemplate zip template)
              | None => None
              end))
  end.

(** The main function for the action. *)
Definition run (env : Environment) : Program (completion unit) :=
  match getIncludeStrategy (core_getInput env "include_prereleases") with
  | Throw error => Finish (Throw error)
  | Return include_strategy =>
  let is_push := String.eqb (core_getInput env "push") "true" in
  let target_repo :=
    first_truthy [Some (core_getInput env "target_repo");
                  process_env env "GITHUB_REPOSITORY"] in
  match toRepositoryIdentifier target_repo with
  | Throw error => Finish (Throw error)
  | Return target_repo_rid =>
  let target_branch := core_getInput env "target_branch" in
  let target_path := core_getInput env "target_path" in
  and_then (getFileContent target_repo_rid target_branch target_path)
    (fun curr_depot_file =>
  (* [curr_depot_last_updated.toISOString()] *)
  match curr_depot_last_updated curr_depot_file with
  | None => Finish (Throw RangeError_time_value)
  | Some _ =>
  let source_repo :=
    first_truthy [process_env env "__SOURCE_REPO__";
                  process_env env "GITHUB_REPOSITORY"] in
  match toRepositoryIdentifier source_repo with
  | Throw error => Finish (Throw error)
  | Return source_rid =>
  and_then (listReleases source_rid)
    (fun releases =>
  match releases with
  | None => Emit (core_setFailed "Failed to fetch releases") (Finish (Return tt))
  | Some releases =>
  let zips := run_zips include_strategy curr_depot_file releases in
  let num_of_fetching :=
    length (run_fetched include_strategy curr_depot_file releases) in
  if (num_of_fetching =? 0)%nat then Finish (Return tt)
  else
  and_then (for_each zips (createBaseTemplate source_rid))
    (fun fetched_templates =>
  let new_depot := omap id fetched_templates in
  let new_depot_string := JSON_stringify_depot new_depot in
  Emit (core_setOutput "depot" new_depot_string)
    (if negb is_push then Finish (Return tt)
     else
       match getCommitMessage (curr_depot curr_depot_file) new_depot with
       | Throw error => Finish (Throw error)
       | Return commit_message =>
           and_then
             (await_Action
                (pushFile target_repo_rid target_branch target_path
                   new_depot_string commit_message
                   (FileContent.sha <$> curr_depot_file)))
             (fun success =>
                if success then Finish (Return tt)
                else Emit (core_setFailed "Failed to push the file")
                       (Finish (Return tt)))
       end))
  end)
  end
  end)
  end
  end.

End WholeAction.

(** [fetchBaseTemplateFromZip] of the first revision of main.ts with a
    cache: what [createBaseTemplate], [getExternalTemplateFromZip],
    [parseExternalTemplate] and [convertExternalTemplateToBaseTemplate]
    were split from. *)
Definition fetchBaseTemplateFromZip {runtime : JsRuntime} {node : NodeRuntime}
    (rid : RepositoryIdentifier) (zip : DownloadableZip)
    : Program (option BaseTemplate) :=
  match DownloadableZip.result zip with
  | Some result => Finish (Some result)
  | None =>
      Call (repos_getReleaseAsset (RepositoryIdentifier.owner rid)
              (RepositoryIdentifier.repo rid) (DownloadableZip.asset_id zip)
              "application/octet-stream")
        (fun response =>
           match response with
           | Failed _ => Finish None
           | Granted asset_not_ArrayBuffer => Finish None
           | Granted (asset_ArrayBuffer data) =>
               match AdmZip_getEntry data "template.pros" with
               | archive_throws _ => Finish None
               | entry_null => Finish None
               | entry_data text =>
                   match JSON_parse text with
                   | None => Finish None
                   | Some template_json =>
                       match ExternalTemplateSchema_safeParse template_json with
                       | Some template_info =>
                           let template_data :=
                             ExternalTemplate.py_state template_info in
                           Finish
                             (Some
                                (BaseTemplate.mk
                                   (Metadata.mk (DownloadableZip.download_url zip))
                                   (PyState.name template_data)
                                   (PyState.supported_kernels template_data)
                                   (PyState.target template_data)
                                   (PyState.version template_data)))
                       | None => Finish None
                       end
                   end
               end
           end)
  end.

(** The GitHub of [pushFile] inside the GitHub of the whole action. *)
Definition GitHub_of_GitHubApi {World : Type} `{!GitHubApi World}
    : GitHub World :=
  {| respond world request :=
       let (settled, world') := settle world (push_request request) in
       (to_Response settled, world') |}.

Definition of_Response (response : Response) : Settled ResponseData :=
  match response with
  | Resolved data => Granted data
  | Rejected error => Failed error
  end.

(** An event of [pushFile] as an observation of the whole action; its
    log lines are none. *)
Definition observe (event : Event) : option Observation :=
  match event with
  | Requested request response =>
      Some (Called (push_request request) (of_Response response))
  | Logged _ _ => None
  end.

(** A request GitHub granted that writes the depot file or creates the
    ref of the branch. *)
Definition granted_write (event : Event) : bool :=
  match event with
  | Requested (repos_createOrUpdateFileContents _ _ _ _ _ _ _) (Resolved _) => true
  | Requested (git_createRef _ _ _ _) (Resolved _) => true
  | _ => false
  end.

(** The date [getFileContent] gives a file whose last commit is [commit]. *)
Definition commit_last_modified {runtime : JsRuntime} (commit : CommitItem) : Date :=
  match committer_date commit with
  | Some raw_date => if String.eqb raw_date "" then Some 0 else new_Date raw_date
  | None => Some 0
  end.

(** What the entry fetched for a zip is: the previous result of the zip
    when it has one, else nothing or an entry at the [download_url] of
    the zip. *)
Definition fetched_for (zip : DownloadableZip) (fetched : option BaseTemplate) : Prop :=
  match DownloadableZip.result zip with
  | Some result => fetched = Some result
  | None =>
      ∀ entry,
        fetched = Some entry →
        Metadata.location (BaseTemplate.metadata entry)
        = DownloadableZip.download_url zip
  end.

(** [run] got as far as the list of releases: its configuration is
    valid, [getFileContent] returned [curr_depot_file] with a valid date,
    and [listReleases] returned [releases]; [events] are the requests so
    far and [world'] is the state GitHub is left in. *)
Definition run_reads {runtime : JsRuntime} {node : NodeRuntime}
    {World : Type} `{!GitHubApi World}
    (env : Environment) (world : World)
    (include_strategy : IncludeStrategy)
    (target_repo_rid source_rid : RepositoryIdentifier)
    (curr_depot_file : option FileContent) (releases : option (list Release))
    (events : list Observation) (world' : World) : Prop :=
  getIncludeStrategy (core_getInput env "include_prereleases")
    = Return include_strategy
  ∧ toRepositoryIdentifier
      (first_truthy [Some (core_getInput env "target_repo");
                     process_env env "GITHUB_REPOSITORY"])
    = Return target_repo_rid
  ∧ toRepositoryIdentifier
      (first_truthy [process_env env "__SOURCE_REPO__";
                     process_env env "GITHUB_REPOSITORY"])
    = Return source_rid
  ∧ is_Some (curr_depot_last_updated curr_depot_file)
  ∧ ∃ events1 world1 events2,
      execute (getFileContent target_repo_rid (core_getInput env "target_branch")
                 (core_getInput env "target_path")) world
      = (events1, world1, curr_depot_file)
      ∧ execute (listReleases source_rid) world1 = (events2, world', releases)
      ∧ events = (events1 ++ events2)%list.

(** *** A repository for the worked examples *)

Fixpoint base64_index (c : ascii) (alphabet : string) : option N :=
  match alphabet with
  | EmptyString => None
  | String a rest =>
      if Ascii.eqb a c then Some 0%N else N.succ <$> base64_index c rest
  end.

(** A decoder of base64 text without line breaks. *)
Fixpoint base64_decode (text : string) : string :=
  match text with
  | String a (String b (String c (String d rest))) =>
      match base64_index a base64_alphabet, base64_index b base64_alphabet,
            base64_index c base64_alphabet, base64_index d base64_alphabet with
      | Some x, Some y, Some z, Some w =>
          String (ascii_of_N (x * 4 + y / 16))
            (String (ascii_of_N (y mod 16 * 16 + z / 4))
               (String (ascii_of_N (z mod 4 * 64 + w)) (base64_decode rest)))
      | Some x, Some y, Some z, None =>
          String (ascii_of_N (x * 4 + y / 16))
            (String (ascii_of_N (y mod 16 * 16 + z / 4)) "")
      | Some x, Some y, None, _ => String (ascii_of_N (x * 4 + y / 16)) ""
      | _, _, _, _ => ""
      end
  | _ => ""
  end.

(** The example Node: [archives] lists the assets it can open, each
    with its entries. *)
Definition example_node (archives : list (string * list (string * string)))
    : NodeRuntime :=
  {| Buffer_from_base64 := base64_decode;
     AdmZip_getEntry data name :=
       match List.find (fun archive => String.eqb archive.1 data) archives with
       | None => archive_throws (mkThrown true None "Error: Invalid or unsupported zip format. No END header found")
       | Some archive =>
           match List.find (fun entry => String.eqb entry.1 name) archive.2 with
           | Some entry => entry_data entry.2
           | None => entry_null
           end
       end |}.

(** A repository for the worked examples: what it answers to the reads,
    the bytes of its assets by id, and the GitHub of [pushFile]. *)
Record MockRepository := mkMockRepository {
  mock_content : Settled ContentData;
  mock_commits : Settled (list CommitItem);
  mock_releases : Settled (list Release);
  mock_assets : list (Z * string);
  mock_git : MockGitHub
}.

Definition mock_settle {D : Type} (world : MockRepository) (request : Api D)
    : Settled D * MockRepository :=
  match request in Api D return Settled D * MockRepository with
  | repos_getContent _ _ _ _ => (mock_content world, world)
  | repos_listCommits _ _ _ _ _ => (mock_commits world, world)
  | repos_listReleases _ _ => (mock_releases world, world)
  | repos_getReleaseAsset _ _ asset_id _ =>
      (match List.find (fun asset => asset.1 =? asset_id) (mock_assets world) with
       | Some asset => Granted (asset_ArrayBuffer asset.2)
       | None => Failed http_not_found
       end,
       world)
  | push_request request =>
      let (response, git) := mock_respond (mock_git world) request in
      (match response with
       | Resolved data => Granted data
       | Rejected error => Failed error
       end,
       mkMockRepository (mock_content world) (mock_commits world)
         (mock_releases world) (mock_assets world) git)
  end.

#[global] Instance mock_repository : GitHubApi MockRepository :=
  {| settle := @mock_settle |}.

(** *** Two runs of the action on the example repository *)

(** The inputs and the environment of the examples: the defaults of the
    action, in the workflow of [jerrylum/PROS-Test-Project]. *)
Definition example_environment (include_prereleases push : string) : Environment :=
  {| core_getInput name :=
       if String.eqb name "include_prereleases" then include_prereleases
       else if String.eqb name "push" then push
       else if String.eqb name "target_branch" then "depot"
       else if String.eqb name "target_path" then "depot.json"
       else "";
     process_env name :=
       if String.eqb name "GITHUB_REPOSITORY"
       then Some "jerrylum/PROS-Test-Project" else None |}.

(** The repository of the workflow, source and target of the examples. *)
Definition example_repository : RepositoryIdentifier :=
  RepositoryIdentifier.mk (Some "jerrylum") (Some "PROS-Test-Project").

(** The description in the [template.pros] of a release of [example]. *)
Definition template_pros_json (version : string) : Json :=
  JObject
    [ ("py/state",
       JObject
         [ ("metadata", JObject [("origin", JString "example")]);
           ("name", JString "example");
           ("supported_kernels", JString "4.1.2");
           ("system_files", JArray [JString "include/example.h"]);
           ("target", JString "v5");
           ("user_files", JArray []);
           ("version", JString version) ]);
      ("py/object", JString ExternalTemplate.py_object) ].

(** The runtime of the two runs: it parses the depot file of the second
    run and the two [template.pros] texts. *)
Definition two_runs_runtime : JsRuntime :=
  example_runtime
    [ ("[]", JArray []);
      (second_run_depot_text, JArray [BaseTemplate_to_Json released_1_0_0]);
      ("template.pros of 1.0.0", template_pros_json "1.0.0");
      ("template.pros of 1.0.1", template_pros_json "1.0.1") ].

(** The assets: two templates and a zip of documents. *)
Definition two_runs_node : NodeRuntime :=
  example_node
    [ ("bytes of example@1.0.0.zip", [("template.pros", "template.pros of 1.0.0")]);
      ("bytes of example@1.0.1.zip", [("template.pros", "template.pros of 1.0.1")]);
      ("bytes of documents.zip", [("index.html", "<html></html>")]) ].

Definition example_assets : list (Z * string) :=
  [ (7, "bytes of example@1.0.0.zip");
    (8, "bytes of documents.zip");
    (11, "bytes of example@1.0.1.zip") ].

(** The repository before the first run: no branch [depot]. *)
Definition first_run_repository (releases : Settled (list Release)) : MockRepository :=
  mkMockRepository (Failed http_not_found) (Failed http_not_found) releases
    example_assets (mkMockGitHub [] None).

(** The repository before the second run: the branch holds the depot
    file of the first release, committed on 2021-01-01. *)
Definition second_run_repository (releases : Settled (list Release)) : MockRepository :=
  mkMockRepository
    (Granted (content_object "file" "3b18e512dba79e4c8300dd08aeb37f8e728b8dad"
                (base64 second_run_depot_text)))
    (Granted [mkCommitItem (Some "2021-01-01T00:00:00Z")])
    releases example_assets (mkMockGitHub ["refs/heads/depot"] None).

(** * Properties *)

#[local] Set Warnings "-clear-no-such-hyp".

(** ** Strings *)

Lemma append_String a s t : String a s +:+ t = String a (s +:+ t).
Proof. reflexivity. Qed.

Lemma includes_contains c s : includes c s = true ↔ contains c s.
Proof.
  induction s as [|a s IH]; simpl.
  - split; [discriminate|]. intros ([|? ?] & after & E); discriminate.
  - destruct (Ascii.eqb_spec a c) as [->|Hne].
    + split; [|done]. intros _. by exists "", s.
    + rewrite IH. split.
      * intros (before & after & ->). by exists (String a before), after.
      * intros ([|b before] & after & E); simpl in E; injection E as E1 E2.
        -- by destruct Hne.
        -- by exists before, after.
Qed.

Lemma includes_false_not_contains c s : includes c s = false ↔ ¬ contains c s.
Proof.
  rewrite <- includes_contains. destruct (includes c s); split; done.
Qed.

(** The first [c] of a string that contains one: nothing before it is a
    [c], and the string is the two substrings around it. *)
Lemma substring_around_first c s :
  includes c s = true →
  s = substring_before_first c s +:+ String c (substring_after_first c s)
  ∧ includes c (substring_before_first c s) = false.
Proof.
  induction s as [|a s IH]; simpl; [discriminate|].
  destruct (Ascii.eqb_spec a c) as [->|Hne]; [done|].
  intros H. destruct (IH H) as [E Hb]. simpl.
  rewrite append_String, <- E. split; [done|].
  destruct (Ascii.eqb_spec a c); [by destruct Hne | done].
Qed.

Lemma substring_before_first_without c s :
  includes c s = false → substring_before_first c s = s.
Proof.
  induction s as [|a s IH]; simpl; [done|].
  destruct (Ascii.eqb a c); [discriminate|]. intros H. by rewrite IH.
Qed.

Lemma split_pieces_eq c s :
  split_pieces c s =
    (substring_before_first c s,
     if includes c s then split c (substring_after_first c s) else []).
Proof.
  induction s as [|a s IH]; simpl; [done|].
  rewrite IH. destruct (Ascii.eqb a c); [|done].
  unfold split. by rewrite IH.
Qed.

(** [s.split(c)] piece by piece: the substring before the first [c], then
    the pieces of the substring after it. *)
Lemma split_eq c s :
  split c s =
    substring_before_first c s
    :: (if includes c s then split c (substring_after_first c s) else []).
Proof. unfold split at 1. by rewrite split_pieces_eq. Qed.

Lemma split_without c s : includes c s = false → split c s = [s].
Proof.
  intros H. rewrite split_eq, H. by rewrite substring_before_first_without.
Qed.

(** ** toRepositoryIdentifier *)

(** The cases of the unit test of [toRepositoryIdentifier]. *)
Example toRepositoryIdentifier_test :
  toRepositoryIdentifier "jerrylum/PROS-Test-Project"
    = Return (RepositoryIdentifier.mk (Some "jerrylum") (Some "PROS-Test-Project"))
  ∧ toRepositoryIdentifier "jerrylum/"
    = Return (RepositoryIdentifier.mk (Some "jerrylum") (Some ""))
  ∧ toRepositoryIdentifier "/" = Return (RepositoryIdentifier.mk (Some "") (Some ""))
  ∧ toRepositoryIdentifier "" = Throw (mkError "Invalid repository name: ")
  ∧ toRepositoryIdentifier "jerrylum"
    = Throw (mkError "Invalid repository name: jerrylum").
Proof. repeat split; reflexivity. Qed.

Lemma toRepositoryIdentifier_without_slash s :
  includes "/" s = false →
  toRepositoryIdentifier s = Throw (mkError ("Invalid repository name: " +:+ s)).
Proof. intros H. unfold toRepositoryIdentifier. by rewrite H. Qed.

Lemma toRepositoryIdentifier_with_slash s :
  includes "/" s = true →
  toRepositoryIdentifier s =
    Return (RepositoryIdentifier.mk
              (Some (substring_before_first "/" s))
              (Some (substring_before_first "/" (substring_after_first "/" s)))).
Proof.
  intros H. unfold toRepositoryIdentifier, destructure_owner_repo.
  rewrite H. simpl. rewrite split_eq, H.
  by rewrite (split_eq _ (substring_after_first "/" s)).
Qed.

(** C5, as the code has it: a string without a ['/'] is refused with an
    error; for a string with one, [owner] is the substring before the
    first ['/'] and [repo] the substring between the first ['/'] and the
    next one, which is all that follows the first ['/'] when there is no
    second one.  Either substring may be empty. *)
Theorem toRepositoryIdentifier_owner_and_next_piece (s : string) :
  (¬ contains "/" s →
   toRepositoryIdentifier s = Throw (mkError ("Invalid repository name: " +:+ s)))
  ∧ (contains "/" s →
     toRepositoryIdentifier s =
       Return (RepositoryIdentifier.mk
                 (Some (substring_before_first "/" s))
                 (Some (substring_before_first "/" (substring_after_first "/" s)))))
  ∧ (contains "/" s → ¬ contains "/" (substring_after_first "/" s) →
     toRepositoryIdentifier s =
       Return (RepositoryIdentifier.mk
                 (Some (substring_before_first "/" s))
                 (Some (substring_after_first "/" s)))).
Proof.
  split; [|split].
  - intros H. apply toRepositoryIdentifier_without_slash.
    by apply includes_false_not_contains.
  - intros H. apply toRepositoryIdentifier_with_slash.
    by apply includes_contains.
  - intros H Hrest. apply includes_contains in H.
    apply includes_false_not_contains in Hrest.
    rewrite (toRepositoryIdentifier_with_slash s H).
    by rewrite (substring_before_first_without _ _ Hrest).
Qed.

Lemma toRepositoryIdentifier_owner_and_next_piece_witness :
  toRepositoryIdentifier "jerrylum/PROS-Test-Project"
    = Return (RepositoryIdentifier.mk (Some "jerrylum") (Some "PROS-Test-Project"))
  ∧ toRepositoryIdentifier "LemLib" = Throw (mkError "Invalid repository name: LemLib").
Proof.
  split.
  - apply (proj2 (proj2 (toRepositoryIdentifier_owner_and_next_piece
                           "jerrylum/PROS-Test-Project"))).
    + by exists "jerrylum", "PROS-Test-Project".
    + apply includes_false_not_contains. reflexivity.
  - apply (proj1 (toRepositoryIdentifier_owner_and_next_piece "LemLib")).
    apply includes_false_not_contains. reflexivity.
Defined.

(** C5 as stated fails where the string has a second ['/']: [repo] is not
    the whole substring after the first one. *)
Lemma toRepositoryIdentifier_second_slash_counterexample :
  contains "/" "a/b/c"
  ∧ substring_before_first "/" "a/b/c" = "a"
  ∧ substring_after_first "/" "a/b/c" = "b/c"
  ∧ toRepositoryIdentifier "a/b/c"
    = Return (RepositoryIdentifier.mk (Some "a") (Some "b"))
  ∧ toRepositoryIdentifier "a/b/c"
    ≠ Return (RepositoryIdentifier.mk
                (Some (substring_before_first "/" "a/b/c"))
                (Some (substring_after_first "/" "a/b/c"))).
Proof.
  split; [by exists "a", "b/c"|].
  repeat split; discriminate.
Qed.

(** The earlier revision has no check: without a ['/'] it returns an
    identifier whose [repo] is [undefined]; with one it agrees with the
    later revision. *)
Lemma Legacy_toRepositoryIdentifier_eq s :
  (includes "/" s = false →
   Legacy.toRepositoryIdentifier s = RepositoryIdentifier.mk (Some s) None)
  ∧ (includes "/" s = true →
     toRepositoryIdentifier s = Return (Legacy.toRepositoryIdentifier s)).
Proof.
  unfold toRepositoryIdentifier, Legacy.toRepositoryIdentifier. split; intros H.
  - by rewrite split_without.
  - by rewrite H.
Qed.

Lemma Legacy_toRepositoryIdentifier_eq_witness :
  Legacy.toRepositoryIdentifier "LemLib"
    = RepositoryIdentifier.mk (Some "LemLib") None
  ∧ toRepositoryIdentifier "LemLib/LemLib"
    = Return (Legacy.toRepositoryIdentifier "LemLib/LemLib").
Proof.
  split.
  - apply (proj1 (Legacy_toRepositoryIdentifier_eq "LemLib")). reflexivity.
  - apply (proj2 (Legacy_toRepositoryIdentifier_eq "LemLib/LemLib")). reflexivity.
Defined.

(** ** getIncludeStrategy *)

(** C8: [getIncludeStrategy] returns its input for ['all'], ['stable-only']
    and ['prerelease-only'] and for no other string; every other input,
    the empty string among them, makes it throw. *)
Theorem getIncludeStrategy_accepts_three_literals (input : string) :
  match getIncludeStrategy input with
  | Return strategy =>
      IncludeStrategy_literal strategy = input
      ∧ (input = "all" ∨ input = "stable-only" ∨ input = "prerelease-only")
  | Throw error =>
      input ≠ "all" ∧ input ≠ "stable-only" ∧ input ≠ "prerelease-only"
      ∧ error = mkError ("Invalid include strategy: " +:+ input)
  end
  ∧ getIncludeStrategy "" = Throw (mkError "Invalid include strategy: ").
Proof.
  split; [|reflexivity].
  unfold getIncludeStrategy.
  destruct (String.eqb_spec input "all") as [->|H1]; [simpl; auto|].
  destruct (String.eqb_spec input "stable-only") as [->|H2]; [simpl; auto|].
  destruct (String.eqb_spec input "prerelease-only") as [->|H3]; [simpl; auto|].
  done.
Qed.

(** The cases of the unit test of [getIncludeStrategy]. *)
Example getIncludeStrategy_test :
  getIncludeStrategy "all" = Return all
  ∧ getIncludeStrategy "stable-only" = Return stable_only
  ∧ getIncludeStrategy "prerelease-only" = Return prerelease_only
  ∧ getIncludeStrategy "invalid" = Throw (mkError "Invalid include strategy: invalid").
Proof. repeat split. Qed.

(** The cases of the unit test of [shouldIncludeZip]. *)
Example shouldIncludeZip_test :
  let zip prerelease := DownloadableZip.mk 1 "" "" prerelease None in
  shouldIncludeZip (zip false) all = true
  ∧ shouldIncludeZip (zip true) all = true
  ∧ shouldIncludeZip (zip false) stable_only = true
  ∧ shouldIncludeZip (zip true) stable_only = false
  ∧ shouldIncludeZip (zip false) prerelease_only = false
  ∧ shouldIncludeZip (zip true) prerelease_only = true.
Proof. repeat split. Qed.

(** ** getDownloadableZips *)

Lemma substring_skip_prefix (p t : string) (n : nat) :
  substring (String.length p) n (p +:+ t) = substring 0 n t.
Proof. induction p as [|a p IH]; simpl; [done|]. by rewrite <- IH. Qed.

Lemma substring_whole (t : string) : substring 0 (String.length t) t = t.
Proof. induction t as [|a t IH]; simpl; [done|]. by rewrite IH. Qed.

Lemma length_append (p t : string) :
  String.length (p +:+ t) = (String.length p + String.length t)%nat.
Proof. induction p as [|a p IH]; simpl; [done|]. by rewrite <- IH. Qed.

Lemma substring_cut (s : string) (k : nat) :
  (k ≤ String.length s)%nat →
  s = substring 0 k s +:+ substring k (String.length s - k) s.
Proof.
  revert k. induction s as [|a s IH]; intros [|k] Hk; simpl in *; try lia.
  - done.
  - by rewrite substring_whole.
  - apply Nat.succ_le_mono in Hk.
    rewrite append_String. f_equal. by apply IH.
Qed.

(** [endsWith] decides that the string is some stem followed by the
    suffix. *)
Lemma endsWith_spec (s suffix : string) :
  endsWith s suffix = true ↔ ∃ stem, s = stem +:+ suffix.
Proof.
  unfold endsWith. split.
  - destruct (Nat.leb_spec (String.length suffix) (String.length s)) as [Hle|];
      [|discriminate].
    intros E%String.eqb_eq.
    exists (substring 0 (String.length s - String.length suffix) s).
    pose proof (substring_cut s (String.length s - String.length suffix)) as C.
    replace (String.length s - (String.length s - String.length suffix))%nat
      with (String.length suffix) in C by lia.
    rewrite E in C. apply C. lia.
  - intros [stem ->]. rewrite length_append.
    destruct (Nat.leb_spec (String.length suffix)
                (String.length stem + String.length suffix)) as [_|]; [|lia].
    replace (String.length stem + String.length suffix - String.length suffix)%nat
      with (String.length stem) by lia.
    rewrite substring_skip_prefix, substring_whole. apply String.eqb_refl.
Qed.

Lemma endsWith_zip_named (name : string) :
  endsWith name ".zip" = true ↔ zip_named name.
Proof. apply endsWith_spec. Qed.

Lemma Candidates_functional prerelease assets zips zips' :
  Candidates prerelease assets zips →
  Candidates prerelease assets zips' →
  zips = zips'.
Proof.
  intros H. revert zips'.
  induction H as [|asset assets zips Hz _ IH|asset assets zips Hz _ IH];
    intros zips' H'; inversion H'; subst; try done.
  - f_equal. by apply IH.
  - by apply IH.
Qed.

Lemma getDownloadableZips_Candidates (release : Release) :
  Candidates (Release.prerelease release) (Release.assets release)
    (getDownloadableZips release).
Proof.
  unfold getDownloadableZips.
  induction (Release.assets release) as [|asset assets IH]; simpl.
  - constructor.
  - destruct (endsWith (Asset.name asset) ".zip") eqn:E; simpl.
    + apply candidates_zip; [by apply endsWith_zip_named | done].
    + apply candidates_other; [|done].
      intros Hz%endsWith_zip_named. congruence.
Qed.

(** C7: [getDownloadableZips] returns exactly the candidates of the
    release: one per asset whose name ends in [.zip], in the order of the
    asset list, with [asset_id], [download_url] and [updated_at] copied
    from [id], [browser_download_url] and [updated_at], [prerelease] taken
    from the release and [result] null; the other assets are dropped, and
    an empty asset list gives no candidate. *)
Theorem getDownloadableZips_exactly_the_zips (release : Release) :
  Candidates (Release.prerelease release) (Release.assets release)
    (getDownloadableZips release)
  ∧ (∀ zips,
       Candidates (Release.prerelease release) (Release.assets release) zips →
       zips = getDownloadableZips release)
  ∧ (Release.assets release = [] → getDownloadableZips release = []).
Proof.
  split; [apply getDownloadableZips_Candidates|]. split.
  - intros zips H.
    apply (Candidates_functional _ _ _ _ H (getDownloadableZips_Candidates release)).
  - unfold getDownloadableZips. by intros ->.
Qed.

(** The cases of the unit test of [getDownloadableZips]. *)
Example getDownloadableZips_test :
  getDownloadableZips
    (Release.mk
       [ Asset.mk 1 "https://example.com/download" "2021-01-01T00:00:00Z" "example.zip";
         Asset.mk 2 "https://example.com/download" "2021-01-01T00:00:00Z" "zip" ]
       false)
  = [ DownloadableZip.mk 1 "https://example.com/download" "2021-01-01T00:00:00Z"
        false None ]
  ∧ getDownloadableZips (Release.mk [] false) = [].
Proof. split; reflexivity. Qed.

Lemma getDownloadableZips_exactly_the_zips_witness :
  [ DownloadableZip.mk 1 "https://example.com/download" "2021-01-01T00:00:00Z"
      false None ]
  = getDownloadableZips
      (Release.mk
         [ Asset.mk 1 "https://example.com/download" "2021-01-01T00:00:00Z" "example.zip";
           Asset.mk 2 "https://example.com/download" "2021-01-01T00:00:00Z" "zip" ]
         false).
Proof.
  apply (proj1 (proj2 (getDownloadableZips_exactly_the_zips
                         (Release.mk
                            [ Asset.mk 1 "https://example.com/download"
                                "2021-01-01T00:00:00Z" "example.zip";
                              Asset.mk 2 "https://example.com/download"
                                "2021-01-01T00:00:00Z" "zip" ]
                            false)))).
  simpl.
  apply (candidates_zip false (Asset.mk 1 _ _ "example.zip")); [by exists "example"|].
  apply candidates_other; [|constructor].
  intros H. apply endsWith_zip_named in H. discriminate H.
Defined.

(** ** The cache resolver *)

Section CacheResolver.
Context {runtime : JsRuntime}.

Lemma Date_gt_irrefl (d : Date) : Date_gt d d = false.
Proof. destruct d as [t|]; simpl; [|done]. apply Z.ltb_irrefl. Qed.

Lemma Date_gt_later (t_zip t_depot : Z) :
  t_depot < t_zip → Date_gt (Some t_zip) (Some t_depot) = true.
Proof. intros H. simpl. by apply Z.ltb_lt. Qed.

(** [applyPreviousResult] changes no field but [result]. *)
Lemma applyPreviousResult_frame zip depot_map depot_last_updated :
  let zip' := applyPreviousResult zip depot_map depot_last_updated in
  DownloadableZip.asset_id zip' = DownloadableZip.asset_id zip
  ∧ DownloadableZip.download_url zip' = DownloadableZip.download_url zip
  ∧ DownloadableZip.updated_at zip' = DownloadableZip.updated_at zip
  ∧ DownloadableZip.prerelease zip' = DownloadableZip.prerelease zip.
Proof. done. Qed.

Lemma hasBeenUpdatedAfter_applyPreviousResult zip depot_map depot_last_updated target_date :
  hasBeenUpdatedAfter (applyPreviousResult zip depot_map depot_last_updated) target_date
  = hasBeenUpdatedAfter zip target_date.
Proof. reflexivity. Qed.

Lemma getPreviousResult_applyPreviousResult zip depot_map depot_last_updated other_map :
  getPreviousResult (applyPreviousResult zip depot_map depot_last_updated) other_map
  = getPreviousResult zip other_map.
Proof. reflexivity. Qed.

(** C3: the comparison of [applyPreviousResult] is strict.  A zip whose
    [updated_at] is the very date [depot_last_updated] is not newer: its
    [result] becomes the previous entry at its [download_url], or null
    when there is none.  A zip whose [updated_at] is strictly later has
    its [result] forced to null, whatever the map holds.  No other field
    changes. *)
Theorem applyPreviousResult_strict_comparison
    (zip : DownloadableZip) (depot_map : gmap string BaseTemplate)
    (depot_last_updated : Date) :
  (new_Date (DownloadableZip.updated_at zip) = depot_last_updated →
   hasBeenUpdatedAfter zip depot_last_updated = false
   ∧ applyPreviousResult zip depot_map depot_last_updated
     = DownloadableZip.mk
         (DownloadableZip.asset_id zip) (DownloadableZip.download_url zip)
         (DownloadableZip.updated_at zip) (DownloadableZip.prerelease zip)
         (depot_map !! DownloadableZip.download_url zip))
  ∧ (∀ t_zip t_depot : Z,
       new_Date (DownloadableZip.updated_at zip) = Some t_zip →
       depot_last_updated = Some t_depot →
       t_depot < t_zip →
       hasBeenUpdatedAfter zip depot_last_updated = true
       ∧ applyPreviousResult zip depot_map depot_last_updated
         = DownloadableZip.mk
             (DownloadableZip.asset_id zip) (DownloadableZip.download_url zip)
             (DownloadableZip.updated_at zip) (DownloadableZip.prerelease zip)
             None).
Proof.
  unfold applyPreviousResult, hasBeenUpdatedAfter, getPreviousResult. split.
  - intros <-. by rewrite Date_gt_irrefl.
  - intros t_zip t_depot -> -> Hlt. by rewrite Date_gt_later.
Qed.

(** C9: [applyPreviousResult] is idempotent for a fixed map and date. *)
Theorem applyPreviousResult_idempotent
    (zip : DownloadableZip) (depot_map : gmap string BaseTemplate)
    (depot_last_updated : Date) :
  applyPreviousResult
    (applyPreviousResult zip depot_map depot_last_updated)
    depot_map depot_last_updated
  = applyPreviousResult zip depot_map depot_last_updated.
Proof.
  unfold applyPreviousResult at 1.
  rewrite hasBeenUpdatedAfter_applyPreviousResult.
  rewrite getPreviousResult_applyPreviousResult.
  by destruct (applyPreviousResult_frame zip depot_map depot_last_updated)
    as (-> & -> & -> & ->).
Qed.

End CacheResolver.

(** The zip, the previous entry and the map of the unit tests of
    [applyPreviousResult] and [getPreviousResult]. *)
Example applyPreviousResult_test :
  let runtime := example_runtime [] in
  let zip :=
    DownloadableZip.mk 1 "https://example.com/download" "2021-01-01T00:00:00Z"
      false None in
  let result :=
    BaseTemplate.mk (Metadata.mk "https://example.com/download") "example"
      "4.1.2" "v5" "1.0.0" in
  let depot_map : gmap string BaseTemplate :=
    <[DownloadableZip.download_url zip := result]> ∅ in
  let reused :=
    DownloadableZip.mk 1 "https://example.com/download" "2021-01-01T00:00:00Z"
      false (Some result) in
  applyPreviousResult zip depot_map (new_Date "2021-01-01T00:00:00Z") = reused
  ∧ applyPreviousResult zip depot_map (new_Date "2021-01-01T00:00:01Z") = reused
  ∧ applyPreviousResult zip depot_map (new_Date "2020-12-31T23:59:59Z") = zip
  ∧ getPreviousResult zip depot_map = Some result.
Proof. repeat split; vm_compute; reflexivity. Qed.

Lemma applyPreviousResult_strict_comparison_witness :
  let runtime := example_runtime [] in
  let zip :=
    DownloadableZip.mk 1 "https://example.com/download" "2021-01-01T00:00:00Z"
      false None in
  let result :=
    BaseTemplate.mk (Metadata.mk "https://example.com/download") "example"
      "4.1.2" "v5" "1.0.0" in
  let depot_map : gmap string BaseTemplate :=
    <[DownloadableZip.download_url zip := result]> ∅ in
  (hasBeenUpdatedAfter zip (Some 1609459200000) = false
   ∧ applyPreviousResult zip depot_map (Some 1609459200000)
     = DownloadableZip.mk 1 "https://example.com/download"
         "2021-01-01T00:00:00Z" false
         (depot_map !! "https://example.com/download"))
  ∧ (hasBeenUpdatedAfter zip (Some 1609459199999) = true
     ∧ applyPreviousResult zip depot_map (Some 1609459199999)
       = DownloadableZip.mk 1 "https://example.com/download"
           "2021-01-01T00:00:00Z" false None).
Proof.
  intros runtime zip result depot_map. split.
  - apply (proj1 (@applyPreviousResult_strict_comparison runtime zip depot_map
                    (Some 1609459200000))).
    reflexivity.
  - apply (proj2 (@applyPreviousResult_strict_comparison runtime zip depot_map
                    (Some 1609459199999))
             1609459200000 1609459199999).
    + reflexivity.
    + reflexivity.
    + lia.
Defined.

(** ** The template converter *)

Lemma z_string_Some input s : z_string input = Some s → input = Some (JString s).
Proof. destruct input as [[]|]; simpl; congruence. Qed.

(** A description that validates has, under ['py/state'], the four
    strings the converter copies. *)
Lemma ExternalTemplateSchema_safeParse_state input description :
  ExternalTemplateSchema_safeParse input = Some description →
  ∃ fields state_fields,
    input = JObject fields
    ∧ get_property "py/state" fields = Some (JObject state_fields)
    ∧ get_property "name" state_fields
      = Some (JString (PyState.name (ExternalTemplate.py_state description)))
    ∧ get_property "supported_kernels" state_fields
      = Some (JString (PyState.supported_kernels (ExternalTemplate.py_state description)))
    ∧ get_property "target" state_fields
      = Some (JString (PyState.target (ExternalTemplate.py_state description)))
    ∧ get_property "version" state_fields
      = Some (JString (PyState.version (ExternalTemplate.py_state description))).
Proof.
  destruct input as [| | | | |fields]; simpl; try discriminate.
  intros H. exists fields.
  destruct (z_literal _ _); simpl in H; [|discriminate].
  destruct (get_property "py/state" fields) as [[| | | | |state_fields]|];
    simpl in H; try discriminate.
  exists state_fields.
  destruct (z_record_any _); simpl in H; [|discriminate].
  destruct (z_string (get_property "name" state_fields)) eqn:E1;
    simpl in H; [|discriminate].
  destruct (z_string (get_property "supported_kernels" state_fields)) eqn:E2;
    simpl in H; [|discriminate].
  destruct (z_array_string (get_property "system_files" state_fields));
    simpl in H; [|discriminate].
  destruct (z_string (get_property "target" state_fields)) eqn:E3;
    simpl in H; [|discriminate].
  destruct (z_array_string (get_property "user_files" state_fields));
    simpl in H; [|discriminate].
  destruct (z_string (get_property "version" state_fields)) eqn:E4;
    simpl in H; [|discriminate].
  injection H as <-. simpl.
  apply z_string_Some in E1, E2, E3, E4. by rewrite E1, E2, E3, E4.
Qed.

(** Reading a depot entry back from the JSON written for it. *)
Lemma BaseTemplateSchema_safeParse_to_Json (item : BaseTemplate) :
  BaseTemplateSchema_safeParse (BaseTemplate_to_Json item) = Some item.
Proof.
  destruct item as [[location] name supported_kernels target version].
  reflexivity.
Qed.

(** A depot written as JSON and read back through [DepotSchema] is the
    same depot. *)
Theorem DepotSchema_safeParse_to_Json (depot : Depot) :
  DepotSchema_safeParse (JArray (map BaseTemplate_to_Json depot)) = Some depot.
Proof.
  unfold DepotSchema_safeParse.
  induction depot as [|item depot IH]; [done|].
  cbn [map mapM]. rewrite BaseTemplateSchema_safeParse_to_Json. simpl.
  by rewrite IH.
Qed.

(** C6: for a description that validates against
    [ExternalTemplateSchema] and any zip, the entry produced has the
    [name], [supported_kernels], [target] and [version] of the
    description's ['py/state'] (the very strings of the validated JSON),
    its [metadata.location] is the zip's [download_url], and it depends on
    nothing else: descriptions that differ in [system_files], [user_files]
    or their own [metadata] give the same entry.  Reading the entry back
    through [BaseTemplateSchema] recovers it unchanged. *)
Theorem convertExternalTemplateToBaseTemplate_keeps_four_fields
    (zip : DownloadableZip) (input : Json) (description : ExternalTemplate) :
  ExternalTemplateSchema_safeParse input = Some description →
  let state := ExternalTemplate.py_state description in
  let entry := convertExternalTemplateToBaseTemplate zip description in
  (BaseTemplate.name entry = PyState.name state
   ∧ BaseTemplate.supported_kernels entry = PyState.supported_kernels state
   ∧ BaseTemplate.target entry = PyState.target state
   ∧ BaseTemplate.version entry = PyState.version state
   ∧ Metadata.location (BaseTemplate.metadata entry)
     = DownloadableZip.download_url zip)
  ∧ (∃ fields state_fields,
       input = JObject fields
       ∧ get_property "py/state" fields = Some (JObject state_fields)
       ∧ get_property "name" state_fields = Some (JString (BaseTemplate.name entry))
       ∧ get_property "supported_kernels" state_fields
         = Some (JString (BaseTemplate.supported_kernels entry))
       ∧ get_property "target" state_fields
         = Some (JString (BaseTemplate.target entry))
       ∧ get_property "version" state_fields
         = Some (JString (BaseTemplate.version entry)))
  ∧ (∀ metadata system_files user_files,
       convertExternalTemplateToBaseTemplate zip
         (ExternalTemplate.mk
            (PyState.mk metadata (PyState.name state)
               (PyState.supported_kernels state) system_files
               (PyState.target state) user_files (PyState.version state)))
       = entry)
  ∧ BaseTemplateSchema_safeParse (BaseTemplate_to_Json entry) = Some entry.
Proof.
  intros Hvalid state entry. split; [done|]. split; [|split].
  - apply (ExternalTemplateSchema_safeParse_state _ _ Hvalid).
  - done.
  - apply BaseTemplateSchema_safeParse_to_Json.
Qed.

(** The case of the unit test of the converter. *)
Example convertExternalTemplateToBaseTemplate_test :
  convertExternalTemplateToBaseTemplate example_zip example_description
  = example_entry "https://example.com/download" "1.0.0".
Proof. reflexivity. Qed.

Lemma convertExternalTemplateToBaseTemplate_keeps_four_fields_witness :
  ExternalTemplateSchema_safeParse example_description_json = Some example_description
  ∧ BaseTemplateSchema_safeParse
      (BaseTemplate_to_Json
         (convertExternalTemplateToBaseTemplate example_zip example_description))
    = Some (example_entry "https://example.com/download" "1.0.0").
Proof.
  split; [reflexivity|].
  apply (proj2 (proj2 (proj2
    (convertExternalTemplateToBaseTemplate_keeps_four_fields
       example_zip example_description_json example_description eq_refl)))).
Defined.

(** ** The commit message *)

(** The cases of the unit test of [getCommitMessage]. *)
Example getCommitMessage_test :
  let download1 := "https://example.com/download1" in
  let download2 := "https://example.com/download2" in
  getCommitMessage [] [] = Return "Update one or more version(s)"
  ∧ getCommitMessage [] [example_entry download1 "1.0.0"]
    = Return "Release version 1.0.0"
  ∧ getCommitMessage [] [example_entry download1 "1.0.0"; example_entry download2 "1.0.0"]
    = Return "Update one or more version(s)"
  ∧ getCommitMessage [example_entry download1 "1.0.0"] []
    = Return "Update one or more version(s)"
  ∧ getCommitMessage [example_entry download1 "1.0.0"] [example_entry download2 "2.0.0"]
    = Return "Update one or more version(s)"
  ∧ getCommitMessage [example_entry download1 "1.0.0"] [example_entry download1 "1.0.1"]
    = Return "Update one or more version(s)".
Proof. repeat split; vm_compute; reflexivity. Qed.

(** The two results of [getCommitMessage]. *)
Lemma getCommitMessage_cases (old_depot new_depot : Depot) :
  let st := tally old_depot new_depot in
  getCommitMessage old_depot new_depot =
    if bool_decide (added_count st = 1%nat ∧ updated_count st = 0%nat
                    ∧ size (old_depot_map st) = 0%nat)
    then
      match new_depot with
      | first :: _ => Return ("Release version " +:+ BaseTemplate.version first)
      | [] => Throw TypeError_version
      end
    else Return "Update one or more version(s)".
Proof.
  intros st. unfold getCommitMessage. fold st.
  destruct (Nat.eqb_spec (added_count st) 1) as [Ha|Ha];
    destruct (Nat.eqb_spec (updated_count st) 0) as [Hu|Hu];
    destruct (Nat.eqb_spec (size (old_depot_map st)) 0) as [Hr|Hr]; simpl;
    case_bool_decide as Hd; try done; try (by destruct Hd as (? & ? & ?));
    try (by destruct Hd).
  by destruct new_depot.
Qed.

(** Without a new entry nothing is added. *)
Lemma tally_nil (old_depot : Depot) : added_count (tally old_depot []) = 0%nat.
Proof. reflexivity. Qed.

(** C10: whenever [getCommitMessage] takes the "Release version" branch
    (one entry added, none updated, none removed) the new depot has an
    entry at index 0, whose [version] the message carries; so for every
    pair of depots the function returns a string and never throws. *)
Theorem getCommitMessage_release_branch_in_bounds (old_depot new_depot : Depot) :
  (added_count (tally old_depot new_depot) = 1%nat →
   updated_count (tally old_depot new_depot) = 0%nat →
   size (old_depot_map (tally old_depot new_depot)) = 0%nat →
   ∃ first,
     new_depot !! 0%nat = Some first
     ∧ getCommitMessage old_depot new_depot
       = Return ("Release version " +:+ BaseTemplate.version first))
  ∧ (∃ text, getCommitMessage old_depot new_depot = Return text).
Proof.
  split.
  - intros Ha Hu Hr. destruct new_depot as [|first rest].
    + rewrite tally_nil in Ha. discriminate.
    + exists first. split; [done|].
      rewrite getCommitMessage_cases. simpl.
      by rewrite bool_decide_eq_true_2.
  - rewrite getCommitMessage_cases. simpl. case_bool_decide as Hd; [|eauto].
    destruct new_depot as [|first rest]; [|eauto].
    destruct Hd as [Ha _]. rewrite tally_nil in Ha. discriminate.
Qed.

Lemma getCommitMessage_release_branch_in_bounds_witness :
  ∃ first,
    [example_entry "https://example.com/download1" "1.0.0"] !! 0%nat = Some first
    ∧ getCommitMessage [] [example_entry "https://example.com/download1" "1.0.0"]
      = Return ("Release version " +:+ BaseTemplate.version first).
Proof.
  apply (proj1 (getCommitMessage_release_branch_in_bounds
                  [] [example_entry "https://example.com/download1" "1.0.0"]));
    reflexivity.
Defined.

(** *** JSON.stringify tells depot entries apart *)

Lemma append_assoc (s t u : string) : (s +:+ t) +:+ u = s +:+ (t +:+ u).
Proof. induction s as [|a s IH]; [done|]. by rewrite !append_String, IH. Qed.

Lemma append_inj_l (p s t : string) : p +:+ s = p +:+ t → s = t.
Proof.
  induction p as [|a p IH]; [done|].
  rewrite !append_String. intros E. injection E as E. by apply IH.
Qed.

(** [unescape_char] reads back what [escape_char] writes. *)
Lemma unescape_escape_char (c : ascii) (rest : string) :
  unescape_char (escape_char c +:+ rest) = Some (c, rest).
Proof.
  destruct c as [b0 b1 b2 b3 b4 b5 b6 b7].
  destruct b0, b1, b2, b3, b4, b5, b6, b7; reflexivity.
Qed.

(** The text of a string literal ends at the first bare quote, so two
    literals followed by anything are equal only for equal strings. *)
Lemma escape_terminated_inj (s t rest rest' : string) :
  escape s +:+ String double_quote rest = escape t +:+ String double_quote rest' →
  s = t ∧ rest = rest'.
Proof.
  revert t. induction s as [|a s IH]; intros [|b t] E; simpl in E.
  - by injection E as ->.
  - apply (f_equal unescape_char) in E.
    rewrite append_assoc, unescape_escape_char in E. discriminate.
  - apply (f_equal unescape_char) in E.
    rewrite append_assoc, unescape_escape_char in E. discriminate.
  - apply (f_equal unescape_char) in E.
    rewrite !append_assoc, !unescape_escape_char in E.
    injection E as -> E. by destruct (IH _ E) as [-> ->].
Qed.

Lemma JSON_quote_inj (s t rest rest' : string) :
  JSON_quote s +:+ rest = JSON_quote t +:+ rest' → s = t ∧ rest = rest'.
Proof.
  unfold JSON_quote. rewrite !append_String, !append_assoc.
  intros E. injection E as E. by apply escape_terminated_inj.
Qed.

(** Two depot entries have the same [JSON.stringify] text only if they
    are the same entry. *)
Lemma JSON_stringify_inj (item item' : BaseTemplate) :
  JSON_stringify item = JSON_stringify item' → item = item'.
Proof.
  destruct item as [[location] name supported_kernels target version].
  destruct item' as [[location'] name' supported_kernels' target' version'].
  unfold JSON_stringify. simpl BaseTemplate.metadata. simpl Metadata.location.
  simpl BaseTemplate.name. simpl BaseTemplate.supported_kernels.
  simpl BaseTemplate.target. simpl BaseTemplate.version.
  intros E.
  repeat first
    [ apply append_inj_l in E
    | apply JSON_quote_inj in E; destruct E as [? E] ].
  by simplify_eq.
Qed.

(** The test of the loop, [JSON.stringify(old_item) !== JSON.stringify(new_item)],
    is the difference of the two entries. *)
Lemma JSON_stringify_differs (old_item new_item : BaseTemplate) :
  negb (String.eqb (JSON_stringify old_item) (JSON_stringify new_item))
  = bool_decide (old_item ≠ new_item).
Proof.
  destruct (String.eqb_spec (JSON_stringify old_item) (JSON_stringify new_item))
    as [E|E]; simpl.
  - apply JSON_stringify_inj in E. by rewrite bool_decide_eq_false_2; [|auto].
  - rewrite bool_decide_eq_true_2; [done|]. by intros ->.
Qed.

(** [JSON.stringify] gives two depot entries the same text exactly when
    they are the same entry, so the comparison of the texts in
    [getCommitMessage] is a comparison of content. *)
Theorem JSON_stringify_eq_iff (item item' : BaseTemplate) :
  JSON_stringify item = JSON_stringify item' ↔ item = item'.
Proof. split; [apply JSON_stringify_inj | by intros ->]. Qed.

(** *** The counts of the loop *)

Lemma fold_insert_lookup_None {V : Type} (entries : list (string * V))
    (m : gmap string V) (k : string) :
  fold_left (fun m entry => <[entry.1 := entry.2]> m) entries m !! k = None
  ↔ m !! k = None ∧ k ∉ entries.*1.
Proof.
  revert m. induction entries as [|[k' v] entries IH]; intros m; simpl.
  - split; [|tauto]. intros ?. split; [done|]. apply not_elem_of_nil.
  - rewrite IH, not_elem_of_cons, lookup_insert_None. simpl.
    split; [intros [[? ?] ?] | intros [? [? ?]]]; repeat split;
      first [assumption | congruence].
Qed.

Lemma fold_insert_dom {V : Type} (entries : list (string * V)) (m : gmap string V) :
  dom (fold_left (fun m entry => <[entry.1 := entry.2]> m) entries m)
  = dom m ∪ list_to_set entries.*1.
Proof.
  revert m. induction entries as [|[k v] entries IH]; intros m; simpl.
  - set_solver.
  - rewrite IH, dom_insert_L. set_solver.
Qed.

Lemma index_by_location_keys (depot : Depot) :
  (map (fun item => (Metadata.location (BaseTemplate.metadata item), item)) depot).*1
  = locations depot.
Proof. unfold locations. induction depot as [|item depot IH]; simpl; by f_equal. Qed.

(** The index has no entry exactly at the locations the depot lacks. *)
Lemma index_by_location_None (depot : Depot) (location : string) :
  index_by_location depot !! location = None ↔ location ∉ locations depot.
Proof.
  unfold index_by_location, new_Map.
  rewrite fold_insert_lookup_None, index_by_location_keys, lookup_empty. tauto.
Qed.

Lemma index_by_location_dom (depot : Depot) :
  dom (index_by_location depot) = list_to_set (locations depot).
Proof.
  unfold index_by_location, new_Map.
  rewrite fold_insert_dom, index_by_location_keys. set_solver.
Qed.

Lemma fold_delete_dom {V : Type} (keys : list string) (m : gmap string V) :
  dom (fold_left (fun m k => delete k m) keys m) = dom m ∖ list_to_set keys.
Proof.
  revert m. induction keys as [|k keys IH]; intros m; simpl.
  - set_solver.
  - rewrite IH, dom_delete_L. set_solver.
Qed.

(** The loop over new entries with distinct locations, from any state:
    the map loses the locations visited, and each entry is counted by
    what the map held at its location when the loop began. *)
Lemma fold_tally_item (items : Depot) (m : gmap string BaseTemplate) (a u : nat) :
  NoDup (locations items) →
  fold_left tally_item items (mkTally m a u)
  = mkTally
      (fold_left (fun m k => delete k m) (locations items) m)
      (a + length
             (List.filter
                (fun item =>
                   bool_decide
                     (m !! Metadata.location (BaseTemplate.metadata item) = None))
                items))
      (u + length
             (List.filter
                (fun item =>
                   match m !! Metadata.location (BaseTemplate.metadata item) with
                   | Some old_item => bool_decide (old_item ≠ item)
                   | None => false
                   end)
                items)).
Proof.
  revert m a u. induction items as [|item items IH]; intros m a u Hdup.
  - simpl. f_equal; lia.
  - apply NoDup_cons in Hdup as [Hfresh Hdup].
    cbn [fold_left]. unfold tally_item at 2.
    cbn [old_depot_map added_count updated_count].
    set (location := Metadata.location (BaseTemplate.metadata item)) in *.
    rewrite IH by done. clear IH.
    assert (∀ item', In item' items →
              delete location m !! Metadata.location (BaseTemplate.metadata item')
              = m !! Metadata.location (BaseTemplate.metadata item')) as Hsame.
    { intros item' Hin. apply lookup_delete_ne. intros E. apply Hfresh.
      rewrite E. apply list_elem_of_In, in_map_iff. eauto. }
    rewrite (List.filter_ext_in
               (fun item' => bool_decide (delete location m !! _ = None))
               (fun item' => bool_decide (m !! _ = None)))
      by (intros item' Hin; by rewrite (Hsame item' Hin)).
    rewrite (List.filter_ext_in
               (fun item' => match delete location m !! _ with
                             | Some old_item => bool_decide (old_item ≠ item')
                             | None => false
                             end)
               (fun item' => match m !! _ with
                             | Some old_item => bool_decide (old_item ≠ item')
                             | None => false
                             end))
      by (intros item' Hin; by rewrite (Hsame item' Hin)).
    cbn [List.filter locations map fold_left]. fold location.
    destruct (m !! location) as [old_item|] eqn:E.
    + rewrite JSON_stringify_differs.
      rewrite (bool_decide_eq_false_2 (Some old_item = None)) by done.
      destruct (bool_decide (old_item ≠ item)); simpl; f_equal; lia.
    + rewrite (bool_decide_eq_true_2 (None = None)) by done.
      simpl. f_equal; lia.
Qed.

(** The counts of [getCommitMessage] are the counts of the content
    comparison, for a new depot whose entries have distinct locations:
    the added entries are those at a location the old depot lacks, the
    updated ones those that differ from the old entry at their location,
    and what is left of the index are the removed locations. *)
Theorem tally_by_content (old_depot new_depot : Depot) :
  NoDup (locations new_depot) →
  added_count (tally old_depot new_depot)
    = length (List.filter (is_added old_depot) new_depot)
  ∧ updated_count (tally old_depot new_depot)
    = length (List.filter (is_updated old_depot) new_depot)
  ∧ size (old_depot_map (tally old_depot new_depot))
    = size (removed_locations old_depot new_depot).
Proof.
  intros Hdup. unfold tally. fold (index_by_location old_depot).
  rewrite (fold_tally_item _ _ _ _ Hdup). simpl. split; [|split].
  - f_equal. apply List.filter_ext. intros item. unfold is_added.
    apply bool_decide_ext, index_by_location_None.
  - done.
  - rewrite <- size_dom, fold_delete_dom, index_by_location_dom. done.
Qed.

(** The message by the content comparison, for a new depot whose entries
    have distinct locations: "Release version" with the version of the
    first entry of the new depot when exactly one entry is added and
    none is updated or removed, the generic message in every other
    case. *)
Theorem getCommitMessage_by_content (old_depot new_depot : Depot) :
  NoDup (locations new_depot) →
  let single_release :=
    length (List.filter (is_added old_depot) new_depot) = 1%nat
    ∧ length (List.filter (is_updated old_depot) new_depot) = 0%nat
    ∧ removed_locations old_depot new_depot = ∅ in
  (single_release →
   ∃ first rest,
     new_depot = first :: rest
     ∧ getCommitMessage old_depot new_depot
       = Return ("Release version " +:+ BaseTemplate.version first))
  ∧ (¬ single_release →
     getCommitMessage old_depot new_depot = Return "Update one or more version(s)").
Proof.
  intros Hdup single_release.
  destruct (tally_by_content old_depot new_depot Hdup) as (Ha & Hu & Hr).
  assert (single_release
          ↔ added_count (tally old_depot new_depot) = 1%nat
            ∧ updated_count (tally old_depot new_depot) = 0%nat
            ∧ size (old_depot_map (tally old_depot new_depot)) = 0%nat) as Hiff.
  { unfold single_release. rewrite Ha, Hu, Hr.
    by rewrite size_empty_iff, leibniz_equiv_iff. }
  rewrite getCommitMessage_cases. cbn zeta. split.
  - intros Hs. rewrite bool_decide_eq_true_2 by by apply Hiff.
    destruct new_depot as [|first rest]; [|eauto].
    destruct Hs as [Hs _]. discriminate Hs.
  - intros Hs. rewrite bool_decide_eq_false_2; [done|].
    intros Hc. by apply Hs, Hiff.
Qed.

Lemma getCommitMessage_by_content_witness :
  getCommitMessage []
    [example_entry "https://example.com/download1" "1.0.0";
     example_entry "https://example.com/download2" "1.0.0"]
  = Return "Update one or more version(s)".
Proof.
  assert (NoDup (locations
                   [example_entry "https://example.com/download1" "1.0.0";
                    example_entry "https://example.com/download2" "1.0.0"]))
    as Hdup.
  { simpl. apply NoDup_cons. split; [|apply NoDup_singleton].
    intros Hin. apply list_elem_of_singleton in Hin. discriminate Hin. }
  apply (proj2 (getCommitMessage_by_content [] _ Hdup)).
  intros [Hadded _]. discriminate Hadded.
Defined.

(** Where two new entries share a location the loop counts the second as
    added, although the old depot has an entry there. *)
Example tally_shared_location :
  let item := example_entry "https://example.com/download1" "1.0.0" in
  added_count (tally [item] [item; item]) = 1%nat
  ∧ List.filter (is_added [item]) [item; item] = []
  ∧ getCommitMessage [item] [item; item] = Return "Release version 1.0.0".
Proof. vm_compute. repeat split; reflexivity. Qed.

(** C2, the code at an input where it differs: the one added entry stands
    second in the new depot, and the message carries the version of the
    first entry, which was there before.  The earlier revision of
    [getCommitMessage] names the added entry. *)
Theorem getCommitMessage_names_the_first_entry :
  let kept := example_entry "https://example.com/download/1.0.0/example.zip" "1.0.0" in
  let added := example_entry "https://example.com/download/0.9.1/example.zip" "0.9.1" in
  let old_depot := [kept] in
  let new_depot := [kept; added] in
  (added_count (tally old_depot new_depot) = 1%nat
   ∧ updated_count (tally old_depot new_depot) = 0%nat
   ∧ size (old_depot_map (tally old_depot new_depot)) = 0%nat)
  ∧ List.filter
      (fun item =>
         negb (bool_decide
                 (Metadata.location (BaseTemplate.metadata item) ∈ locations old_depot)))
      new_depot
    = [added]
  ∧ getCommitMessage old_depot new_depot = Return "Release version 1.0.0"
  ∧ Legacy.getCommitMessage old_depot new_depot = Return "Release version 0.9.1".
Proof. vm_compute. repeat split; reflexivity. Qed.

(** The earlier revision of [getCommitMessage] compares no content and
    counts by the lengths: when one entry is replaced by another it
    announces a release, and for one added entry next to an updated one
    it does the same, where the content comparison gives the generic
    message. *)
Theorem Legacy_getCommitMessage_miscounts :
  let download1 := "https://example.com/download1" in
  let download2 := "https://example.com/download2" in
  Legacy.getCommitMessage [example_entry download1 "1.0.0"]
    [example_entry download2 "2.0.0"]
  = Return "Release version 2.0.0"
  ∧ getCommitMessage [example_entry download1 "1.0.0"]
      [example_entry download2 "2.0.0"]
    = Return "Update one or more version(s)"
  ∧ Legacy.getCommitMessage [example_entry download1 "1.0.0"]
      [example_entry download1 "1.0.1"]
    = Return "Update 0 version(s)"
  ∧ Legacy.getCommitMessage [example_entry download1 "1.0.0"] []
    = Return "Update -1 version(s)".
Proof. vm_compute. repeat split; reflexivity. Qed.

(** ** The publish protocol *)

Section PublishProtocol.
Context {World : Type} {github : GitHub World}.

Lemma perform_Await {A : Type} request (continue : Response → Action A)
    (world world' : World) response :
  respond world request = (response, world') →
  perform (Await request continue) world =
    let '(events, final, value) := perform (continue response) world' in
    (Requested request response :: events, final, value).
Proof. intros E. simpl. by rewrite E. Qed.

(** The catch block on an error that is no "not found": an error is
    logged, nothing is requested, the result is [false]. *)
Lemma perform_pushFile_catch_other owner repo branch path content commit_message
    error (world : World) :
  is_not_found error = false →
  perform (pushFile_catch owner repo branch path content commit_message error) world
  = ([Logged core_error
        ("Failed to check if branch '" +:+ branch +:+ "' exists. "
         +:+ String_of error)],
     world, false).
Proof. intros E. unfold pushFile_catch. by rewrite E. Qed.

(** The orphan branch when GitHub grants the three steps. *)
Lemma perform_createOrphanBranch owner repo branch path content commit_message
    (world1 world2 world3 world4 : World) treeSHA newCommit ref_data :
  respond world1
    (git_createTree owner repo None [mkTreeEntry path "100644" "blob" content])
    = (Resolved treeSHA, world2) →
  respond world2
    (git_createCommit owner repo commit_message (data_sha treeSHA) [])
    = (Resolved newCommit, world3) →
  respond world3
    (git_createRef owner repo ("refs/heads/" +:+ branch) (data_sha newCommit))
    = (Resolved ref_data, world4) →
  perform (createOrphanBranch owner repo branch path content commit_message) world1
  = ([ Requested
         (git_createTree owner repo None [mkTreeEntry path "100644" "blob" content])
         (Resolved treeSHA);
       Requested
         (git_createCommit owner repo commit_message (data_sha treeSHA) [])
         (Resolved newCommit);
       Requested
         (git_createRef owner repo ("refs/heads/" +:+ branch) (data_sha newCommit))
         (Resolved ref_data) ],
     world4, true).
Proof.
  intros E1 E2 E3. unfold createOrphanBranch.
  rewrite (perform_Await _ _ _ _ _ E1).
  rewrite (perform_Await _ _ _ _ _ E2).
  by rewrite (perform_Await _ _ _ _ _ E3).
Qed.

(** Every run of the bootstrap is one of the four of [OrphanBranchRun]. *)
Lemma perform_createOrphanBranch_run owner repo branch path content
    commit_message (world1 : World) :
  ∃ events final value,
    perform (createOrphanBranch owner repo branch path content commit_message) world1
    = (events, final, value)
    ∧ OrphanBranchRun owner repo branch path content commit_message events value.
Proof.
  unfold createOrphanBranch. cbn [perform].
  destruct (respond world1 _) as [[treeSHA|error] world2]; cbn [perform].
  - destruct (respond world2 _) as [[newCommit|error] world3]; cbn [perform].
    + destruct (respond world3 _) as [[ref_data|error] world4]; cbn [perform];
        eexists _, _, _; (split; [reflexivity|]); constructor.
    + eexists _, _, _. split; [reflexivity|]. constructor.
  - eexists _, _, _. split; [reflexivity|]. constructor.
Qed.

(** C4: when the check for the branch fails, [pushFile] looks at the
    error.  Any error but a "not found" (status 404) ends it with [false]
    after logging, with no request for a tree, a commit or a ref.  A
    "not found" starts the bootstrap, whose every run is one of
    [OrphanBranchRun]: a tree that holds exactly the one file, then a
    commit of that tree with no parent, then the ref of the branch at
    that commit, each step made once GitHub has granted the one before;
    when GitHub grants all three the result is [true]. *)
Theorem pushFile_branch_check_rejected
    (rid : RepositoryIdentifier) (branch path content commit_message : string)
    (old_sha : option string) (error : Thrown) (world world1 : World) :
  let owner := RepositoryIdentifier.owner rid in
  let repo := RepositoryIdentifier.repo rid in
  let check := Requested (repos_getBranch owner repo branch) (Rejected error) in
  respond world (repos_getBranch owner repo branch) = (Rejected error, world1) →
  (is_not_found error = false →
   perform (pushFile rid branch path content commit_message old_sha) world
   = ([ check;
        Logged core_error
          ("Failed to check if branch '" +:+ branch +:+ "' exists. "
           +:+ String_of error) ],
      world1, false)
   ∧ List.filter is_bootstrap_step
       (requests (perform (pushFile rid branch path content commit_message old_sha)
                    world).1.1)
     = [])
  ∧ (is_not_found error = true →
     (∃ events final value,
        perform (pushFile rid branch path content commit_message old_sha) world
        = (check
           :: Logged core_info
                ("Branch '" +:+ branch
                 +:+ "' does not exist. Creating a new orphan branch.")
           :: events,
           final, value)
        ∧ OrphanBranchRun owner repo branch path content commit_message
            events value)
     ∧ (∀ treeSHA newCommit ref_data (world2 world3 world4 : World),
          respond world1
            (git_createTree owner repo None
               [mkTreeEntry path "100644" "blob" content])
            = (Resolved treeSHA, world2) →
          respond world2
            (git_createCommit owner repo commit_message (data_sha treeSHA) [])
            = (Resolved newCommit, world3) →
          respond world3
            (git_createRef owner repo ("refs/heads/" +:+ branch)
               (data_sha newCommit))
            = (Resolved ref_data, world4) →
          perform (pushFile rid branch path content commit_message old_sha) world
          = ([ check;
               Logged core_info
                 ("Branch '" +:+ branch
                  +:+ "' does not exist. Creating a new orphan branch.");
               Requested
                 (git_createTree owner repo None
                    [mkTreeEntry path "100644" "blob" content])
                 (Resolved treeSHA);
               Requested
                 (git_createCommit owner repo commit_message (data_sha treeSHA) [])
                 (Resolved newCommit);
               Requested
                 (git_createRef owner repo ("refs/heads/" +:+ branch)
                    (data_sha newCommit))
                 (Resolved ref_data) ],
             world4, true))).
Proof.
  intros owner repo check Hcheck. unfold pushFile. fold owner repo.
  rewrite (perform_Await _ _ _ _ _ Hcheck). split.
  - intros Hother. rewrite perform_pushFile_catch_other by done. done.
  - intros Hfound. unfold pushFile_catch. rewrite Hfound.
    change (perform (Log ?l ?t ?k) ?w)
      with (let '(events, final, value) := perform k w in
            (Logged l t :: events, final, value)).
    split.
    + destruct (perform_createOrphanBranch_run owner repo branch path content
                  commit_message world1)
        as (events & final & value & -> & Hrun).
      by exists events, final, value.
    + intros treeSHA newCommit ref_data world2 world3 world4 E1 E2 E3.
      by rewrite (perform_createOrphanBranch _ _ _ _ _ _ _ _ _ _ _ _ _ E1 E2 E3).
Qed.

End PublishProtocol.

Lemma pushFile_branch_check_rejected_witness :
  let rid := RepositoryIdentifier.mk (Some "jerrylum") (Some "PROS-Test-Project") in
  let push := pushFile rid "depot" "depot.json" "[]" "Release version 1.0.0" None in
  let check response :=
    Requested (repos_getBranch (Some "jerrylum") (Some "PROS-Test-Project") "depot")
      response in
  perform push (mkMockGitHub [] (Some http_server_error))
  = ([ check (Rejected http_server_error);
       Logged core_error
         "Failed to check if branch 'depot' exists. HttpError: Server Error" ],
     mkMockGitHub [] (Some http_server_error), false)
  ∧ perform push (mkMockGitHub [] None)
    = ([ check (Rejected http_not_found);
         Logged core_info
           "Branch 'depot' does not exist. Creating a new orphan branch.";
         Requested
           (git_createTree (Some "jerrylum") (Some "PROS-Test-Project") None
              [mkTreeEntry "depot.json" "100644" "blob" "[]"])
           (Resolved (mkResponseData "tree-1"));
         Requested
           (git_createCommit (Some "jerrylum") (Some "PROS-Test-Project")
              "Release version 1.0.0" "tree-1" [])
           (Resolved (mkResponseData "commit-1"));
         Requested
           (git_createRef (Some "jerrylum") (Some "PROS-Test-Project")
              "refs/heads/depot" "commit-1")
           (Resolved (mkResponseData "ref")) ],
       mkMockGitHub ["refs/heads/depot"] None, true).
Proof.
  intros rid push check. split.
  - apply (proj1 (@pushFile_branch_check_rejected MockGitHub mock_github
                    rid "depot" "depot.json" "[]" "Release version 1.0.0" None
                    http_server_error
                    (mkMockGitHub [] (Some http_server_error))
                    (mkMockGitHub [] (Some http_server_error))
                    eq_refl)
             eq_refl).
  - apply (proj2 (proj2 (@pushFile_branch_check_rejected MockGitHub mock_github
                           rid "depot" "depot.json" "[]" "Release version 1.0.0" None
                           http_not_found
                           (mkMockGitHub [] None) (mkMockGitHub [] None)
                           eq_refl)
                    eq_refl)
             (mkResponseData "tree-1") (mkResponseData "commit-1")
             (mkResponseData "ref")
             (mkMockGitHub [] None) (mkMockGitHub [] None)
             (mkMockGitHub ["refs/heads/depot"] None));
      reflexivity.
Defined.

(** ** The pipeline of [run] *)

Section Pipeline.
Context {runtime : JsRuntime}.


(** Without a depot file the filter removes nothing. *)
Lemma removed_before_fetch_without_file (zip : DownloadableZip) :
  removed_before_fetch None zip = false.
Proof.
  unfold removed_before_fetch. rewrite (bool_decide_eq_false_2 (None ≠ None)) by auto.
  apply andb_false_r.
Qed.

(** A zip that is not newer than the depot is never removed. *)
Lemma removed_before_fetch_not_newer (curr_depot_file : option FileContent)
    (zip : DownloadableZip) :
  hasBeenUpdatedAfter zip (curr_depot_last_updated curr_depot_file) = false →
  removed_before_fetch curr_depot_file zip = false.
Proof. intros E. unfold removed_before_fetch. by rewrite E. Qed.

Lemma run_zips_without_file include_strategy releases :
  run_zips include_strategy None releases
  = map (fun zip => applyPreviousResult zip (curr_depot_map None) (Some 0))
      (List.filter (fun zip => shouldIncludeZip zip include_strategy)
         (concat (map getDownloadableZips releases))).
Proof.
  unfold run_zips. f_equal.
  generalize (List.filter (fun zip => shouldIncludeZip zip include_strategy)
                (concat (map getDownloadableZips releases))) as zips.
  induction zips as [|zip zips IH]; simpl; [done|].
  rewrite removed_before_fetch_without_file. simpl. by rewrite IH.
Qed.

(** The zips of [run]: the candidates of the releases that pass the
    include strategy and are not removed, each with its previous result
    applied, in the order of the releases and their assets. *)
Lemma run_zips_In include_strategy curr_depot_file releases (zip : DownloadableZip) :
  In zip (run_zips include_strategy curr_depot_file releases)
  ↔ ∃ release candidate,
      In release releases
      ∧ In candidate (getDownloadableZips release)
      ∧ shouldIncludeZip candidate include_strategy = true
      ∧ removed_before_fetch curr_depot_file candidate = false
      ∧ zip = applyPreviousResult candidate (curr_depot_map curr_depot_file)
                (curr_depot_last_updated curr_depot_file).
Proof.
  unfold run_zips. rewrite in_map_iff. split.
  - intros (candidate & <- & Hin).
    apply filter_In in Hin as [Hin Hkept].
    apply filter_In in Hin as [Hin Hincluded].
    apply in_concat in Hin as (zips & Hzips & Hin).
    apply in_map_iff in Hzips as (release & <- & Hrelease).
    exists release, candidate. by rewrite negb_true_iff in Hkept.
  - intros (release & candidate & Hrelease & Hin & Hincluded & Hkept & ->).
    exists candidate. split; [done|].
    apply filter_In. split; [|by rewrite Hkept].
    apply filter_In. split; [|done].
    apply in_concat. exists (getDownloadableZips release). split; [|done].
    apply in_map_iff. eauto.
Qed.

(** What [run] downloads has passed the filter and has no result. *)
Lemma run_fetched_In include_strategy curr_depot_file releases (zip : DownloadableZip) :
  In zip (run_fetched include_strategy curr_depot_file releases)
  ↔ In zip (run_zips include_strategy curr_depot_file releases)
    ∧ DownloadableZip.result zip = None.
Proof. unfold run_fetched. by rewrite filter_In, bool_decide_eq_true. Qed.

End Pipeline.

(** In the first revision with the filter, a first run (no depot file,
    so the depot dates from the epoch) removes every zip GitHub lists. *)
Example Legacy_first_run_removes_every_zip :
  let runtime := second_run_runtime in
  forallb (Legacy.removed_before_fetch None)
    (concat (map getDownloadableZips second_run_releases)) = true
  ∧ forallb (fun zip => negb (removed_before_fetch None zip))
      (concat (map getDownloadableZips second_run_releases)) = true.
Proof. vm_compute. split; reflexivity. Qed.

(** C1, the code at an input where it differs: on a second run, with the
    depot file read, the zip of the new release (newer than the depot, no
    previous result) is removed before any fetch, while the zip of
    documents (not newer, no previous result, known not to be a template)
    stays and is the one fetched again.  The rule of the specification
    ([known_not_a_template]) excludes the second and not the first. *)
Theorem run_removes_the_newer_zip :
  let runtime := second_run_runtime in
  let file := Some second_run_depot_file in
  let zip_of asset :=
    DownloadableZip.mk (Asset.id asset) (Asset.browser_download_url asset)
      (Asset.updated_at asset) false None in
  curr_depot file = [released_1_0_0]
  ∧ (hasBeenUpdatedAfter (zip_of template_1_0_1_asset) (curr_depot_last_updated file) = true
     ∧ getPreviousResult (zip_of template_1_0_1_asset) (curr_depot_map file) = None
     ∧ known_not_a_template file (zip_of template_1_0_1_asset) = false
     ∧ removed_before_fetch file (zip_of template_1_0_1_asset) = true)
  ∧ (hasBeenUpdatedAfter (zip_of documents_asset) (curr_depot_last_updated file) = false
     ∧ getPreviousResult (zip_of documents_asset) (curr_depot_map file) = None
     ∧ known_not_a_template file (zip_of documents_asset) = true
     ∧ removed_before_fetch file (zip_of documents_asset) = false)
  ∧ run_zips all file second_run_releases
    = [ DownloadableZip.mk 7 "https://example.com/download/1.0.0/example@1.0.0.zip"
          "2020-12-31T23:00:00Z" false (Some released_1_0_0);
        zip_of documents_asset ]
  ∧ run_fetched all file second_run_releases = [zip_of documents_asset].
Proof. vm_compute. repeat split; reflexivity. Qed.

(** ** The index of a depot *)

Lemma fold_insert_lookup_Some {V : Type} (entries : list (string * V))
    (m : gmap string V) (k : string) (v : V) :
  fold_left (fun m entry => <[entry.1 := entry.2]> m) entries m !! k = Some v →
  m !! k = Some v ∨ (k, v) ∈ entries.
Proof.
  revert m. induction entries as [|[k' v'] entries IH]; intros m; simpl.
  - by left.
  - intros Hfold. destruct (IH _ Hfold) as [Hm|Hin].
    + apply lookup_insert_Some in Hm as [[-> ->]|[_ Hm]].
      * right. apply list_elem_of_here.
      * by left.
    + right. by apply list_elem_of_further.
Qed.

Lemma fold_insert_lookup_fresh {V : Type} (entries : list (string * V))
    (m : gmap string V) (k : string) :
  k ∉ entries.*1 →
  fold_left (fun m entry => <[entry.1 := entry.2]> m) entries m !! k = m !! k.
Proof.
  revert m. induction entries as [|[k' v'] entries IH]; intros m Hfresh; simpl.
  - done.
  - apply not_elem_of_cons in Hfresh as [Hne Hfresh].
    rewrite IH by done. simpl. by rewrite lookup_insert_ne.
Qed.

Lemma fold_insert_lookup_NoDup {V : Type} (entries : list (string * V))
    (m : gmap string V) (k : string) (v : V) :
  NoDup entries.*1 → (k, v) ∈ entries →
  fold_left (fun m entry => <[entry.1 := entry.2]> m) entries m !! k = Some v.
Proof.
  revert m. induction entries as [|[k' v'] entries IH]; intros m Hdup Hin.
  - by apply elem_of_nil in Hin.
  - simpl in Hdup. apply NoDup_cons in Hdup as [Hfresh Hdup].
    apply elem_of_cons in Hin as [E|Hin]; simpl.
    + injection E as <- <-.
      rewrite fold_insert_lookup_fresh by done. simpl. apply lookup_insert_eq.
    + by apply IH.
Qed.

Lemma elem_of_location_entries (depot : Depot) (location : string) (item : BaseTemplate) :
  (location, item)
    ∈ map (fun item => (Metadata.location (BaseTemplate.metadata item), item)) depot
  ↔ item ∈ depot ∧ Metadata.location (BaseTemplate.metadata item) = location.
Proof.
  rewrite !list_elem_of_In, in_map_iff. split.
  - intros (item' & E & Hin). injection E as <- <-. done.
  - intros [Hin <-]. eauto.
Qed.

Lemma index_by_location_Some (depot : Depot) (location : string) (item : BaseTemplate) :
  index_by_location depot !! location = Some item →
  item ∈ depot ∧ Metadata.location (BaseTemplate.metadata item) = location.
Proof.
  unfold index_by_location, new_Map. intros Hfound.
  apply fold_insert_lookup_Some in Hfound as [Hempty|Hin].
  - by rewrite lookup_empty in Hempty.
  - by apply elem_of_location_entries.
Qed.

(** The depot indexed by location: what is found at a location is an
    entry of the depot with that location, and in a depot whose entries
    have distinct locations every entry is found at its own location. *)
Theorem index_by_location_lookup (depot : Depot) :
  (∀ location item,
     index_by_location depot !! location = Some item →
     item ∈ depot ∧ Metadata.location (BaseTemplate.metadata item) = location)
  ∧ (NoDup (locations depot) →
     ∀ item,
       item ∈ depot →
       index_by_location depot !! Metadata.location (BaseTemplate.metadata item)
       = Some item).
Proof.
  split.
  - apply index_by_location_Some.
  - unfold index_by_location, new_Map.
    intros Hdup item Hin. apply fold_insert_lookup_NoDup.
    + by rewrite index_by_location_keys.
    + by apply elem_of_location_entries.
Qed.

Lemma index_by_location_lookup_witness :
  index_by_location [released_1_0_0]
    !! Metadata.location (BaseTemplate.metadata released_1_0_0)
  = Some released_1_0_0.
Proof.
  apply (proj2 (index_by_location_lookup [released_1_0_0])).
  - apply NoDup_singleton.
  - apply list_elem_of_here.
Defined.

(** ** The include strategy on the zips of a release *)

Lemma getDownloadableZips_prerelease (release : Release) (zip : DownloadableZip) :
  In zip (getDownloadableZips release) →
  DownloadableZip.prerelease zip = Release.prerelease release.
Proof.
  unfold getDownloadableZips. intros Hin.
  apply in_map_iff in Hin as (asset & <- & _). done.
Qed.

Lemma filter_all {A : Type} (f : A → bool) (l : list A) :
  (∀ x, In x l → f x = true) → List.filter f l = l.
Proof.
  induction l as [|x l IH]; intros Hall; simpl; [done|].
  rewrite Hall by (by left). f_equal. apply IH. intros y Hy. apply Hall. by right.
Qed.

Lemma filter_none {A : Type} (f : A → bool) (l : list A) :
  (∀ x, In x l → f x = false) → List.filter f l = [].
Proof.
  induction l as [|x l IH]; intros Hall; simpl; [done|].
  rewrite Hall by (by left). apply IH. intros y Hy. apply Hall. by right.
Qed.

(** The include strategy keeps or drops the zips of a release as a
    whole: ['all'] keeps them, ['stable-only'] keeps them when the release
    is no prerelease, ['prerelease-only'] keeps them when it is one. *)
Theorem shouldIncludeZip_whole_release
    (release : Release) (include_strategy : IncludeStrategy) :
  List.filter (fun zip => shouldIncludeZip zip include_strategy)
    (getDownloadableZips release)
  = match include_strategy, Release.prerelease release with
    | all, _ | stable_only, false | prerelease_only, true =>
        getDownloadableZips release
    | stable_only, true | prerelease_only, false => []
    end.
Proof.
  destruct include_strategy, (Release.prerelease release) eqn:E;
    first [ apply filter_all | apply filter_none ];
    intros zip Hin; apply getDownloadableZips_prerelease in Hin;
    simpl; rewrite ?Hin, ?E; done.
Qed.

(** ** The publish protocol on an existing branch *)

Section ExistingBranch.
Context {World : Type} {github : GitHub World}.

(** When the branch exists, [pushFile] writes the file with the content
    in base64 and the previous sha as precondition.  A granted write
    ends it with [true].  A rejected write ends it with [false], unless
    the rejection is a "not found": then the orphan-branch bootstrap runs
    as if the branch did not exist. *)
Theorem pushFile_branch_exists
    (rid : RepositoryIdentifier) (branch path content commit_message : string)
    (old_sha : option string) (branch_data : ResponseData) (world world1 : World) :
  let owner := RepositoryIdentifier.owner rid in
  let repo := RepositoryIdentifier.repo rid in
  let check :=
    Requested (repos_getBranch owner repo branch) (Resolved branch_data) in
  let exists_ := Logged core_info ("Branch '" +:+ branch +:+ "' already exists.") in
  let write :=
    repos_createOrUpdateFileContents owner repo branch path commit_message
      (base64 content) old_sha in
  respond world (repos_getBranch owner repo branch) = (Resolved branch_data, world1) →
  (∀ data world2,
     respond world1 write = (Resolved data, world2) →
     perform (pushFile rid branch path content commit_message old_sha) world
     = ([check; exists_; Requested write (Resolved data)], world2, true))
  ∧ (∀ error world2,
       respond world1 write = (Rejected error, world2) →
       is_not_found error = false →
       perform (pushFile rid branch path content commit_message old_sha) world
       = ([ check; exists_; Requested write (Rejected error);
            Logged core_error
              ("Failed to check if branch '" +:+ branch +:+ "' exists. "
               +:+ String_of error) ],
          world2, false))
  ∧ (∀ error world2,
       respond world1 write = (Rejected error, world2) →
       is_not_found error = true →
       ∃ events final value,
         perform (pushFile rid branch path content commit_message old_sha) world
         = (check :: exists_ :: Requested write (Rejected error)
            :: Logged core_info
                 ("Branch '" +:+ branch
                  +:+ "' does not exist. Creating a new orphan branch.")
            :: events,
            final, value)
         ∧ OrphanBranchRun owner repo branch path content commit_message
             events value).
Proof.
  intros owner repo check exists_ write Hcheck.
  unfold pushFile. fold owner repo.
  rewrite (perform_Await _ _ _ _ _ Hcheck). cbn [perform]. fold write.
  split; [|split].
  - intros data world2 Hwrite. by rewrite Hwrite.
  - intros error world2 Hwrite Hother. rewrite Hwrite.
    by rewrite perform_pushFile_catch_other.
  - intros error world2 Hwrite Hfound. rewrite Hwrite.
    unfold pushFile_catch. rewrite Hfound. cbn [perform].
    destruct (perform_createOrphanBranch_run owner repo branch path content
                commit_message world2)
      as (events & final & value & -> & Hrun).
    by exists events, final, value.
Qed.

(** [pushFile] returns [true] exactly when GitHub granted the write of
    the file or the creation of the ref of the branch. *)
Theorem pushFile_true_iff_granted_write
    (rid : RepositoryIdentifier) (branch path content commit_message : string)
    (old_sha : option string) (world : World) :
  (perform (pushFile rid branch path content commit_message old_sha) world).2
  = existsb granted_write
      (perform (pushFile rid branch path content commit_message old_sha) world).1.1.
Proof.
  unfold pushFile, pushFile_catch, createOrphanBranch. cbn [perform].
  repeat first
    [ progress cbn [perform]
    | match goal with
      | |- context [respond ?w ?r] =>
          destruct (respond w r) as [[?|?] ?]
      | |- context [is_not_found ?e] => destruct (is_not_found e)
      end ];
    reflexivity.
Qed.

End ExistingBranch.

Lemma pushFile_branch_exists_witness :
  perform
    (pushFile (RepositoryIdentifier.mk (Some "jerrylum") (Some "PROS-Test-Project"))
       "depot" "depot.json" "[]" "Update one or more version(s)"
       (Some "3b18e512dba79e4c8300dd08aeb37f8e728b8dad"))
    (mkMockGitHub ["refs/heads/depot"] None)
  = ([ Requested
         (repos_getBranch (Some "jerrylum") (Some "PROS-Test-Project") "depot")
         (Resolved (mkResponseData "branch"));
       Logged core_info "Branch 'depot' already exists.";
       Requested
         (repos_createOrUpdateFileContents (Some "jerrylum")
            (Some "PROS-Test-Project") "depot" "depot.json"
            "Update one or more version(s)" "W10="
            (Some "3b18e512dba79e4c8300dd08aeb37f8e728b8dad"))
         (Resolved (mkResponseData "file")) ],
     mkMockGitHub ["refs/heads/depot"] None, true).
Proof.
  apply (proj1 (@pushFile_branch_exists MockGitHub mock_github
                  (RepositoryIdentifier.mk (Some "jerrylum") (Some "PROS-Test-Project"))
                  "depot" "depot.json" "[]" "Update one or more version(s)"
                  (Some "3b18e512dba79e4c8300dd08aeb37f8e728b8dad")
                  (mkResponseData "branch")
                  (mkMockGitHub ["refs/heads/depot"] None)
                  (mkMockGitHub ["refs/heads/depot"] None)
                  eq_refl)
           (mkResponseData "file") (mkMockGitHub ["refs/heads/depot"] None)).
  reflexivity.
Defined.

(** ** The requests of the action *)

Section Requests.
Context {runtime : JsRuntime} {node : NodeRuntime}.
Context {World : Type} {api : GitHubApi World}.

Lemma execute_Call {A D : Type} (request : Api D)
    (continue : Settled D → Program A) (world world' : World) settled :
  settle world request = (settled, world') →
  execute (Call request continue) world =
    let '(events, final, value) := execute (continue settled) world' in
    (Called request settled :: events, final, value).
Proof. intros E. simpl. by rewrite E. Qed.

Lemma execute_and_then {A B : Type} (first : Program A) (rest : A → Program B)
    (world : World) :
  execute (and_then first rest) world =
    let '(events1, world1, value) := execute first world in
    let '(events2, world2, result) := execute (rest value) world1 in
    ((events1 ++ events2)%list, world2, result).
Proof.
  revert world.
  induction first as [value|D request continue IH|output continue IH];
    intros world; cbn [and_then execute].
  - by destruct (execute (rest value) world) as [[? ?] ?].
  - destruct (settle world request) as [settled world']. rewrite IH.
    destruct (execute (continue settled) world') as [[? ?] ?].
    by destruct (execute (rest _) _) as [[? ?] ?].
  - rewrite IH. destruct (execute continue world) as [[? ?] ?].
    by destruct (execute (rest _) _) as [[? ?] ?].
Qed.

(** [getFileContent] returns a file exactly when [getContent] answers
    with an object of type ['file'] and [listCommits] (asked for one
    commit) answers with at least one: the file has the sha of the
    object, its content decoded from base64, and the date of the first
    commit (the epoch when that commit names no date).  In every other
    case it returns [null].  It makes at most these two requests, asks
    for no asset, pushes nothing and gives the workflow nothing. *)
Theorem getFileContent_returns
    (rid : RepositoryIdentifier) (branch path : string) (world : World)
    (file : FileContent) :
  let owner := RepositoryIdentifier.owner rid in
  let repo := RepositoryIdentifier.repo rid in
  let events := (execute (getFileContent rid branch path) world).1.1 in
  ((execute (getFileContent rid branch path) world).2 = Some file
   ↔ ∃ sha content commit commits world1 world2,
       settle world (repos_getContent owner repo path branch)
       = (Granted (content_object "file" sha content), world1)
       ∧ settle world1 (repos_listCommits owner repo path branch 1)
         = (Granted (commit :: commits), world2)
       ∧ file = FileContent.mk sha (Buffer_from_base64 content)
                  (commit_last_modified commit))
  ∧ (calls events ≤ 2)%nat
  ∧ assets_requested events = []
  ∧ pushes_requested events = []
  ∧ outputs events = [].
Proof.
  intros owner repo events. subst events.
  unfold getFileContent. fold owner repo. cbn [execute].
  destruct (settle world (repos_getContent owner repo path branch))
    as [[[|type sha content]|error] world1]; cbn [execute].
  - split; [|repeat split; try reflexivity; unfold calls; simpl; lia].
    split; [discriminate|]. intros (? & ? & ? & ? & ? & ? & E & _). discriminate E.
  - destruct (String.eqb_spec type "file") as [->|Hne]; cbn [negb execute].
    + destruct (settle world1 (repos_listCommits owner repo path branch 1))
        as [[[|commit commits]|error] world2] eqn:Hcommits; cbn [execute].
      * split; [|repeat split; try reflexivity; unfold calls; simpl; lia].
        split; [discriminate|].
        intros (? & ? & ? & ? & ? & ? & E1 & E2 & _).
        injection E1 as <- <- <-. rewrite Hcommits in E2. discriminate E2.
      * split; [|repeat split; try reflexivity; unfold calls; simpl; lia]. simpl. split.
        -- intros E. injection E as <-. by eexists _, _, _, _, _, _.
        -- intros (? & ? & ? & ? & ? & ? & E1 & E2 & ->).
           injection E1 as <- <- <-. rewrite Hcommits in E2.
           by injection E2 as <- <- <-.
      * split; [|repeat split; try reflexivity; unfold calls; simpl; lia].
        split; [discriminate|].
        intros (? & ? & ? & ? & ? & ? & E1 & E2 & _).
        injection E1 as <- <- <-. rewrite Hcommits in E2. discriminate E2.
    + split; [|repeat split; try reflexivity; unfold calls; simpl; lia].
      split; [discriminate|].
      intros (? & ? & ? & ? & ? & ? & E & _). injection E as E _ _. by destruct Hne.
  - split; [|repeat split; try reflexivity; unfold calls; simpl; lia].
    split; [discriminate|]. intros (? & ? & ? & ? & ? & ? & E & _). discriminate E.
Qed.

(** [createBaseTemplate] on a zip with a previous result returns that
    result without a request.  On a zip without one it asks once for the
    asset of the zip, as an octet stream, and asks for nothing else; what
    it returns is [null] or the conversion of the validated
    [template.pros] of that asset, an entry whose location is the
    [download_url] of the zip. *)
Theorem createBaseTemplate_returns
    (rid : RepositoryIdentifier) (zip : DownloadableZip) (world : World) :
  (∀ result,
     DownloadableZip.result zip = Some result →
     execute (createBaseTemplate rid zip) world = ([], world, Some result))
  ∧ (DownloadableZip.result zip = None →
     ∃ settled final value,
       settle world
         (repos_getReleaseAsset (RepositoryIdentifier.owner rid)
            (RepositoryIdentifier.repo rid) (DownloadableZip.asset_id zip)
            "application/octet-stream")
       = (settled, final)
       ∧ execute (createBaseTemplate rid zip) world
         = ([Called
               (repos_getReleaseAsset (RepositoryIdentifier.owner rid)
                  (RepositoryIdentifier.repo rid) (DownloadableZip.asset_id zip)
                  "application/octet-stream")
               settled],
            final, value)
       ∧ ∀ entry,
           value = Some entry →
           Metadata.location (BaseTemplate.metadata entry)
           = DownloadableZip.download_url zip
           ∧ ∃ data text template,
               settled = Granted (asset_ArrayBuffer data)
               ∧ AdmZip_getEntry data "template.pros" = entry_data text
               ∧ parseExternalTemplate text = Some template
               ∧ entry = convertExternalTemplateToBaseTemplate zip template).
Proof.
  unfold createBaseTemplate. split.
  - intros result ->. done.
  - intros ->. unfold getExternalTemplateFromZip. cbn [and_then execute].
    destruct (settle world _) as [[[data|]|error] final]; cbn [and_then execute].
    + destruct (AdmZip_getEntry data "template.pros") as [?| |text] eqn:Hentry;
        cbn [and_then execute].
      * eexists _, _, _. split; [reflexivity|]. split; [reflexivity|]. discriminate.
      * eexists _, _, _. split; [reflexivity|]. split; [reflexivity|]. discriminate.
      * destruct (parseExternalTemplate text) as [template|] eqn:Hparse;
          cbn [and_then execute].
        -- eexists _, _, _. split; [done|]. split; [done|].
           intros entry E. injection E as <-. split; [done|].
           by exists data, text, template.
        -- eexists _, _, _. split; [reflexivity|]. split; [reflexivity|]. discriminate.
    + eexists _, _, _. split; [reflexivity|]. split; [reflexivity|]. discriminate.
    + eexists _, _, _. split; [reflexivity|]. split; [reflexivity|]. discriminate.
Qed.

End Requests.

(** ** The fetch loop *)

Section FetchLoop.
Context {runtime : JsRuntime} {node : NodeRuntime}.
Context {World : Type} {api : GitHubApi World}.

Lemma assets_requested_app (events events' : list Observation) :
  assets_requested (events ++ events')%list
  = (assets_requested events ++ assets_requested events')%list.
Proof. apply omap_app. Qed.

Lemma pushes_requested_app (events events' : list Observation) :
  pushes_requested (events ++ events')%list
  = (pushes_requested events ++ pushes_requested events')%list.
Proof. apply omap_app. Qed.

Lemma outputs_app (events events' : list Observation) :
  outputs (events ++ events')%list = (outputs events ++ outputs events')%list.
Proof. apply omap_app. Qed.

Lemma createBaseTemplate_step (rid : RepositoryIdentifier) (zip : DownloadableZip)
    (world : World) :
  ∃ events final fetched,
    execute (createBaseTemplate rid zip) world = (events, final, fetched)
    ∧ assets_requested events
      = (if bool_decide (DownloadableZip.result zip = None)
         then [DownloadableZip.asset_id zip] else [])
    ∧ pushes_requested events = []
    ∧ outputs events = []
    ∧ fetched_for zip fetched.
Proof.
  unfold createBaseTemplate, fetched_for.
  destruct (DownloadableZip.result zip) as [result|].
  - by eexists _, _, _.
  - unfold getExternalTemplateFromZip. cbn [and_then execute].
    destruct (settle world _) as [[[data|]|error] final]; cbn [and_then execute].
    + destruct (AdmZip_getEntry data "template.pros") as [?| |text];
        cbn [and_then execute]; try by eexists _, _, _.
      destruct (parseExternalTemplate text) as [template|];
        cbn [and_then execute]; eexists _, _, _; repeat split; try done.
      intros entry E. by injection E as <-.
    + by eexists _, _, _.
    + by eexists _, _, _.
Qed.

(** The loop of [run] over the zips asks for the assets of exactly the
    zips without a result, once each and in their order; it pushes
    nothing and gives the workflow nothing; and it returns one result per
    zip: the previous result of a zip that has one, else [null] or an
    entry whose location is the [download_url] of the zip. *)
Lemma for_each_createBaseTemplate
    (rid : RepositoryIdentifier) (zips : list DownloadableZip) (world : World) :
  let events := (execute (for_each zips (createBaseTemplate rid)) world).1.1 in
  let fetched_templates := (execute (for_each zips (createBaseTemplate rid)) world).2 in
  assets_requested events
  = map DownloadableZip.asset_id
      (List.filter (fun zip => bool_decide (DownloadableZip.result zip = None)) zips)
  ∧ pushes_requested events = []
  ∧ outputs events = []
  ∧ Forall2 fetched_for zips fetched_templates.
Proof.
  revert world. induction zips as [|zip zips IH]; intros world.
  - simpl. repeat split. constructor.
  - cbn [for_each]. rewrite execute_and_then.
    destruct (createBaseTemplate_step rid zip world)
      as (events1 & world1 & fetched & -> & Hassets & Hpushes & Houtputs & Hfor).
    rewrite execute_and_then.
    specialize (IH world1).
    destruct (execute (for_each zips (createBaseTemplate rid)) world1)
      as [[events2 world2] results].
    cbn [execute] in *. cbn [fst snd] in *.
    destruct IH as (IHassets & IHpushes & IHoutputs & IHfor).
    rewrite assets_requested_app, pushes_requested_app, outputs_app.
    rewrite !app_nil_r, Hassets, Hpushes, Houtputs, IHassets, IHpushes, IHoutputs.
    repeat split.
    + cbn [List.filter]. by destruct (bool_decide _).
    + by constructor.
Qed.

End FetchLoop.

(** ** The whole action *)

Section Run.
Context {runtime : JsRuntime} {node : NodeRuntime}.
Context {World : Type} {api : GitHubApi World}.

Local Existing Instance GitHub_of_GitHubApi.

(** [pushFile] inside the action: the same requests, the same state of
    GitHub after them and the same result as on its own. *)
Lemma execute_await_Action {A : Type} (action : Action A) (world : World) :
  execute (await_Action action) world
  = (omap observe (perform action world).1.1,
     (perform action world).1.2, (perform action world).2).
Proof.
  revert world.
  induction action as [value|request continue IH|level text continue IH];
    intros world; cbn [await_Action execute perform].
  - done.
  - unfold respond at 1 2 3. cbn [GitHub_of_GitHubApi].
    destruct (settle world (push_request request)) as [settled world'].
    rewrite IH.
    destruct (perform (continue (to_Response settled)) world') as [[? ?] ?].
    cbn [fst snd omap observe]. by destruct settled.
  - rewrite IH. by destruct (perform continue world) as [[? ?] ?].
Qed.

Lemma observe_pushes (events : list Event) :
  pushes_requested (omap observe events) = requests events.
Proof.
  induction events as [|[request response|level text] events IH]; simpl;
    [done| |done].
  f_equal. exact IH.
Qed.

Lemma observe_assets (events : list Event) :
  assets_requested (omap observe events) = [].
Proof. induction events as [|[request response|level text] events IH]; done. Qed.

Lemma observe_outputs (events : list Event) : outputs (omap observe events) = [].
Proof. induction events as [|[request response|level text] events IH]; done. Qed.

(** What is left of [run] once the configuration and the two reads are
    through. *)
Lemma execute_run env (world : World) include_strategy target_repo_rid source_rid
    curr_depot_file releases events (world' : World) :
  run_reads env world include_strategy target_repo_rid source_rid
    curr_depot_file releases events world' →
  execute (run env) world =
    match releases with
    | None =>
        ((events ++ [Emitted (core_setFailed "Failed to fetch releases")])%list,
         world', Return tt)
    | Some releases =>
        if (length (run_fetched include_strategy curr_depot_file releases) =? 0)%nat
        then (events, world', Return tt)
        else
          let '(events3, world3, fetched_templates) :=
            execute
              (for_each (run_zips include_strategy curr_depot_file releases)
                 (createBaseTemplate source_rid))
              world' in
          let new_depot := omap id fetched_templates in
          let set_output :=
            Emitted (core_setOutput "depot" (JSON_stringify_depot new_depot)) in
          if negb (String.eqb (core_getInput env "push") "true")
          then ((events ++ events3 ++ [set_output])%list, world3, Return tt)
          else
            match getCommitMessage (curr_depot curr_depot_file) new_depot with
            | Throw error =>
                ((events ++ events3 ++ [set_output])%list, world3, Throw error)
            | Return commit_message =>
                let pushed :=
                  perform
                    (pushFile target_repo_rid (core_getInput env "target_branch")
                       (core_getInput env "target_path")
                       (JSON_stringify_depot new_depot) commit_message
                       (FileContent.sha <$> curr_depot_file))
                    world3 in
                ((events ++ events3 ++ set_output :: omap observe pushed.1.1
                  ++ (if pushed.2 then []
                      else [Emitted (core_setFailed "Failed to push the file")]))%list,
                 pushed.1.2, Return tt)
            end
    end.
Proof.
  intros (Hstrategy & Htarget & Hsource & [date Hdate]
          & events1 & world1 & events2 & Hfile & Hreleases & ->).
  unfold run. rewrite Hstrategy, Htarget.
  rewrite execute_and_then, Hfile, Hdate, Hsource.
  rewrite execute_and_then, Hreleases.
  destruct releases as [releases|]; cbn [execute].
  - destruct (length (run_fetched include_strategy curr_depot_file releases) =? 0)%nat.
    + cbn [execute]. by rewrite !app_nil_r.
    + rewrite execute_and_then.
      destruct (execute (for_each _ _) world') as [[events3 world3] fetched_templates].
      cbn [execute].
      destruct (negb (String.eqb (core_getInput env "push") "true")).
      * cbn [execute]. by rewrite <- !app_assoc.
      * destruct (getCommitMessage _ _) as [commit_message|error].
        -- rewrite execute_and_then, execute_await_Action.
           destruct (perform _ world3) as [[eventsp worldp] success].
           cbn [fst snd]. destruct success; cbn [execute];
             by rewrite <- ?app_assoc, ?app_nil_r.
        -- cbn [execute]. by rewrite <- !app_assoc.
  - by rewrite <- !app_assoc.
Qed.

Lemma execute_getFileContent_reads (rid : RepositoryIdentifier)
    (branch path : string) (world : World) :
  let events := (execute (getFileContent rid branch path) world).1.1 in
  assets_requested events = [] ∧ pushes_requested events = [] ∧ outputs events = [].
Proof.
  unfold getFileContent. cbn [execute].
  destruct (settle world _) as [[[|type sha content]|error] world1];
    cbn [execute]; [done| |done].
  destruct (negb (String.eqb type "file")); cbn [execute]; [done|].
  by destruct (settle world1 _) as [[[|commit commits]|error] world2].
Qed.

Lemma execute_listReleases_reads (rid : RepositoryIdentifier) (world : World) :
  let events := (execute (listReleases rid) world).1.1 in
  assets_requested events = [] ∧ pushes_requested events = [] ∧ outputs events = [].
Proof.
  unfold listReleases. cbn [execute].
  by destruct (settle world _) as [[releases|error] world1].
Qed.

(** The two reads of [run] ask for no asset, push nothing and give the
    workflow nothing. *)
Lemma run_reads_only env (world : World) include_strategy target_repo_rid
    source_rid curr_depot_file releases events (world' : World) :
  run_reads env world include_strategy target_repo_rid source_rid
    curr_depot_file releases events world' →
  assets_requested events = [] ∧ pushes_requested events = [] ∧ outputs events = [].
Proof.
  intros (_ & _ & _ & _ & events1 & world1 & events2 & Hfile & Hreleases & ->).
  pose proof (execute_getFileContent_reads target_repo_rid
                (core_getInput env "target_branch")
                (core_getInput env "target_path") world) as H1.
  pose proof (execute_listReleases_reads source_rid world1) as H2.
  rewrite Hfile in H1. rewrite Hreleases in H2. cbn [fst snd] in H1, H2.
  destruct H1 as (Ha1 & Hp1 & Ho1), H2 as (Ha2 & Hp2 & Ho2).
  by rewrite assets_requested_app, pushes_requested_app, outputs_app,
    Ha1, Hp1, Ho1, Ha2, Hp2, Ho2.
Qed.

Lemma getIncludeStrategy_Throw input error :
  getIncludeStrategy input = Throw error →
  input ≠ "all" ∧ input ≠ "stable-only" ∧ input ≠ "prerelease-only".
Proof.
  unfold getIncludeStrategy.
  destruct (String.eqb_spec input "all"); [discriminate|].
  destruct (String.eqb_spec input "stable-only"); [discriminate|].
  destruct (String.eqb_spec input "prerelease-only"); [discriminate|]. done.
Qed.

Lemma getIncludeStrategy_Return input include_strategy :
  getIncludeStrategy input = Return include_strategy →
  input = "all" ∨ input = "stable-only" ∨ input = "prerelease-only".
Proof.
  unfold getIncludeStrategy.
  destruct (String.eqb_spec input "all"); [auto|].
  destruct (String.eqb_spec input "stable-only"); [auto|].
  destruct (String.eqb_spec input "prerelease-only"); [auto|]. discriminate.
Qed.

(** [run] validates its configuration before it talks to GitHub: with an
    [include_prereleases] input that is none of the three literals, or a
    target repository (the [target_repo] input, else [GITHUB_REPOSITORY])
    without a ['/'], it throws without a request and without an output. *)
Theorem run_rejects_configuration (env : Environment) (world : World) :
  let include_prereleases := core_getInput env "include_prereleases" in
  let target_repo :=
    first_truthy [Some (core_getInput env "target_repo");
                  process_env env "GITHUB_REPOSITORY"] in
  (include_prereleases ≠ "all" ∧ include_prereleases ≠ "stable-only"
   ∧ include_prereleases ≠ "prerelease-only")
  ∨ ¬ contains "/" target_repo →
  ∃ error, execute (run env) world = ([], world, Throw error).
Proof.
  intros include_prereleases target_repo Hbad. unfold run.
  fold include_prereleases target_repo.
  destruct (getIncludeStrategy include_prereleases) as [include_strategy|error]
    eqn:Hstrategy; [|by exists error].
  destruct Hbad as [(H1 & H2 & H3)|Hslash].
  - apply getIncludeStrategy_Return in Hstrategy as [?|[?|?]]; done.
  - apply includes_false_not_contains in Hslash.
    rewrite (toRepositoryIdentifier_without_slash _ Hslash). eauto.
Qed.

(** After the depot file is read, [run] throws before it lists the
    releases when the date of the file is invalid (the date of its last
    commit does not parse) or when the source repository
    ([__SOURCE_REPO__], else [GITHUB_REPOSITORY]) has no ['/']. *)
Theorem run_stops_after_the_file (env : Environment) (world world1 : World)
    include_strategy target_repo_rid curr_depot_file events1 :
  let source_repo :=
    first_truthy [process_env env "__SOURCE_REPO__";
                  process_env env "GITHUB_REPOSITORY"] in
  getIncludeStrategy (core_getInput env "include_prereleases")
    = Return include_strategy →
  toRepositoryIdentifier
    (first_truthy [Some (core_getInput env "target_repo");
                   process_env env "GITHUB_REPOSITORY"])
    = Return target_repo_rid →
  execute (getFileContent target_repo_rid (core_getInput env "target_branch")
             (core_getInput env "target_path")) world
    = (events1, world1, curr_depot_file) →
  curr_depot_last_updated curr_depot_file = None ∨ ¬ contains "/" source_repo →
  ∃ error, execute (run env) world = (events1, world1, Throw error).
Proof.
  intros source_repo Hstrategy Htarget Hfile Hbad. unfold run.
  rewrite Hstrategy, Htarget, execute_and_then, Hfile. fold source_repo.
  destruct (curr_depot_last_updated curr_depot_file) as [date|].
  - destruct Hbad as [|Hslash]; [done|].
    apply includes_false_not_contains in Hslash.
    rewrite (toRepositoryIdentifier_without_slash _ Hslash).
    cbn [execute]. rewrite app_nil_r. eauto.
  - cbn [execute]. rewrite app_nil_r. eauto.
Qed.

(** When the releases cannot be listed, [run] fails the workflow with
    "Failed to fetch releases" and returns: it asks for no asset, pushes
    nothing and sets no output. *)
Theorem run_fails_without_releases env (world : World) include_strategy
    target_repo_rid source_rid curr_depot_file events (world' : World) :
  run_reads env world include_strategy target_repo_rid source_rid
    curr_depot_file None events world' →
  execute (run env) world
  = ((events ++ [Emitted (core_setFailed "Failed to fetch releases")])%list,
     world', Return tt)
  ∧ outputs (execute (run env) world).1.1
    = [core_setFailed "Failed to fetch releases"]
  ∧ assets_requested (execute (run env) world).1.1 = []
  ∧ pushes_requested (execute (run env) world).1.1 = [].
Proof.
  intros Hreads. rewrite (execute_run _ _ _ _ _ _ _ _ _ Hreads).
  destruct (run_reads_only _ _ _ _ _ _ _ _ _ Hreads) as (Ha & Hp & Ho).
  cbn [fst snd].
  rewrite assets_requested_app, pushes_requested_app, outputs_app, Ha, Hp, Ho.
  done.
Qed.

(** When no zip is left to fetch (every zip that passes the filters has
    a previous result), [run] returns after the two reads: it asks for no
    asset, sets no output and pushes nothing, whatever the depot file
    holds. *)
Theorem run_up_to_date env (world : World) include_strategy
    target_repo_rid source_rid curr_depot_file releases events (world' : World) :
  run_reads env world include_strategy target_repo_rid source_rid
    curr_depot_file (Some releases) events world' →
  run_fetched include_strategy curr_depot_file releases = [] →
  execute (run env) world = (events, world', Return tt)
  ∧ outputs events = []
  ∧ assets_requested events = []
  ∧ pushes_requested events = [].
Proof.
  intros Hreads Hnone. rewrite (execute_run _ _ _ _ _ _ _ _ _ Hreads), Hnone.
  destruct (run_reads_only _ _ _ _ _ _ _ _ _ Hreads) as (Ha & Hp & Ho).
  done.
Qed.

Lemma run_zips_keyed include_strategy curr_depot_file releases
    (fetched_templates : list (option BaseTemplate)) :
  Forall2 fetched_for (run_zips include_strategy curr_depot_file releases)
    fetched_templates →
  Forall2
    (fun zip fetched =>
       ∀ entry,
         fetched = Some entry →
         Metadata.location (BaseTemplate.metadata entry)
         = DownloadableZip.download_url zip)
    (run_zips include_strategy curr_depot_file releases) fetched_templates.
Proof.
  unfold run_zips.
  generalize (List.filter
                (fun zip => negb (removed_before_fetch curr_depot_file zip))
                (List.filter (fun zip => shouldIncludeZip zip include_strategy)
                   (concat (map getDownloadableZips releases)))) as zips.
  intros zips. revert fetched_templates.
  induction zips as [|zip zips IH]; intros fetched_templates Hfor;
    inversion Hfor as [|? fetched ? fetched_templates' Hzip Hrest]; subst;
    cbn [map]; constructor; [|by apply IH].
  unfold fetched_for, applyPreviousResult in Hzip. cbn in Hzip.
  destruct (hasBeenUpdatedAfter zip _); [done|].
  unfold getPreviousResult in Hzip.
  destruct (curr_depot_map curr_depot_file !! DownloadableZip.download_url zip)
    as [result|] eqn:Hresult; [|done].
  intros entry ->. injection Hzip as <-.
  by apply (index_by_location_Some (curr_depot curr_depot_file)) in Hresult
    as [_ ?].
Qed.

(** When zips are left to fetch, [run] asks for the assets of exactly
    those zips, once each and in their order, and then sets the output
    [depot] to the JSON of the entries it has, in the order of the zips;
    every entry, reused or fetched, has the [download_url] of its zip as
    location. *)
Theorem run_fetches_what_is_left env (world : World) include_strategy
    target_repo_rid source_rid curr_depot_file releases events (world' : World) :
  run_reads env world include_strategy target_repo_rid source_rid
    curr_depot_file (Some releases) events world' →
  run_fetched include_strategy curr_depot_file releases ≠ [] →
  ∃ fetched_templates rest,
    assets_requested (execute (run env) world).1.1
    = map DownloadableZip.asset_id
        (run_fetched include_strategy curr_depot_file releases)
    ∧ Forall2
        (fun zip fetched =>
           ∀ entry,
             fetched = Some entry →
             Metadata.location (BaseTemplate.metadata entry)
             = DownloadableZip.download_url zip)
        (run_zips include_strategy curr_depot_file releases) fetched_templates
    ∧ outputs (execute (run env) world).1.1
      = core_setOutput "depot" (JSON_stringify_depot (omap id fetched_templates))
        :: rest.
Proof.
  intros Hreads Hleft. rewrite (execute_run _ _ _ _ _ _ _ _ _ Hreads).
  destruct (run_reads_only _ _ _ _ _ _ _ _ _ Hreads) as (Ha & Hp & Ho).
  destruct (run_fetched include_strategy curr_depot_file releases) eqn:Hfetched;
    [done|]. cbn [length Nat.eqb]. rewrite <- Hfetched. clear Hleft.
  pose proof (for_each_createBaseTemplate source_rid
                (run_zips include_strategy curr_depot_file releases) world')
    as (Hassets & Hpushes & Houtputs & Hfor).
  destruct (execute (for_each _ _) world') as [[events3 world3] fetched_templates].
  cbn [fst snd] in *. apply run_zips_keyed in Hfor.
  exists fetched_templates.
  destruct (negb (String.eqb (core_getInput env "push") "true")).
  - exists []. cbn [fst snd].
    rewrite !assets_requested_app, !outputs_app, Ha, Ho, Hassets, Houtputs.
    split; [by rewrite app_nil_r|]. done.
  - destruct (getCommitMessage _ _) as [commit_message|error].
    + eexists. cbn [fst snd].
      rewrite !assets_requested_app, !outputs_app, Ha, Ho, Hassets, Houtputs.
      change (assets_requested (Emitted ?o :: ?l)) with (assets_requested l).
      change (outputs (Emitted ?o :: ?l)) with (o :: outputs l).
      rewrite assets_requested_app, observe_assets.
      split; [|split; [done|reflexivity]].
      cbn [app]. by destruct (perform _ world3).2; rewrite app_nil_r.
    + exists []. cbn [fst snd].
      rewrite !assets_requested_app, !outputs_app, Ha, Ho, Hassets, Houtputs.
      split; [by rewrite app_nil_r|]. done.
Qed.

Lemma getCommitMessage_returns (old_depot new_depot : Depot) :
  ∃ text, getCommitMessage old_depot new_depot = Return text.
Proof.
  rewrite getCommitMessage_cases. simpl. case_bool_decide as Hd; [|eauto].
  destruct new_depot as [|first rest]; [|eauto].
  destruct Hd as (Ha & _). by rewrite tally_nil in Ha.
Qed.

(** [run] either throws before the releases are listed, having made no
    request but those of [getFileContent], or gets through its two
    reads. *)
Lemma run_cases env (world : World) :
  (∃ events world' error,
     execute (run env) world = (events, world', Throw error)
     ∧ assets_requested events = [] ∧ pushes_requested events = []
     ∧ outputs events = [])
  ∨ (∃ include_strategy target_repo_rid source_rid curr_depot_file releases
       events world',
       run_reads env world include_strategy target_repo_rid source_rid
         curr_depot_file releases events world').
Proof.
  unfold run, run_reads.
  destruct (getIncludeStrategy _) as [include_strategy|error];
    [|left; eexists _, _, _; cbn [execute]; repeat split].
  destruct (toRepositoryIdentifier (first_truthy [Some _; _]))
    as [target_repo_rid|error];
    [|left; eexists _, _, _; cbn [execute]; repeat split].
  rewrite execute_and_then.
  pose proof (execute_getFileContent_reads target_repo_rid
                (core_getInput env "target_branch")
                (core_getInput env "target_path") world) as Hfile.
  destruct (execute (getFileContent _ _ _) world)
    as [[events1 world1] curr_depot_file] eqn:Hexecute.
  cbn [fst snd] in Hfile.
  destruct (curr_depot_last_updated curr_depot_file) as [date|] eqn:Hdate;
    [|left; cbn [execute]; rewrite app_nil_r; eexists _, _, _;
      split; [reflexivity|apply Hfile]].
  destruct (toRepositoryIdentifier (first_truthy [process_env env "__SOURCE_REPO__"; _]))
    as [source_rid|error];
    [|left; cbn [execute]; rewrite app_nil_r; eexists _, _, _;
      split; [reflexivity|apply Hfile]].
  right.
  destruct (execute (listReleases source_rid) world1)
    as [[events2 world2] releases] eqn:Hreleases.
  exists include_strategy, target_repo_rid, source_rid, curr_depot_file, releases,
    (events1 ++ events2)%list, world2.
  repeat split; [by rewrite Hdate|].
  by exists events1, world1, events2.
Qed.

(** With a [push] input other than ['true'], [run] writes nothing to
    GitHub and never reports a failed push, whatever GitHub answers and
    whatever the other inputs are. *)
Theorem run_push_disabled env (world : World) :
  core_getInput env "push" ≠ "true" →
  pushes_requested (execute (run env) world).1.1 = []
  ∧ core_setFailed "Failed to push the file"
    ∉ outputs (execute (run env) world).1.1.
Proof.
  intros Hpush.
  destruct (run_cases env world)
    as [(events & world' & error & -> & _ & Hp & Ho)
       |(include_strategy & target_repo_rid & source_rid & curr_depot_file
         & releases & events & world' & Hreads)].
  - cbn [fst snd]. rewrite Hp, Ho. split; [done|]. apply not_elem_of_nil.
  - rewrite (execute_run _ _ _ _ _ _ _ _ _ Hreads).
    destruct (run_reads_only _ _ _ _ _ _ _ _ _ Hreads) as (Ha & Hp & Ho).
    destruct releases as [releases|].
    + destruct (_ =? _)%nat.
      * cbn [fst snd]. rewrite Hp, Ho. split; [done|]. apply not_elem_of_nil.
      * pose proof (for_each_createBaseTemplate source_rid
                      (run_zips include_strategy curr_depot_file releases) world')
          as (_ & Hpushes & Houtputs & _).
        destruct (execute (for_each _ _) world')
          as [[events3 world3] fetched_templates].
        cbn [fst snd] in *.
        destruct (String.eqb_spec (core_getInput env "push") "true"); [done|].
        cbn [negb fst snd].
        rewrite !pushes_requested_app, !outputs_app, Hp, Ho, Hpushes, Houtputs.
        split; [done|]. cbn. rewrite list_elem_of_singleton. discriminate.
    + cbn [fst snd]. rewrite pushes_requested_app, outputs_app, Hp, Ho.
      split; [done|]. cbn. rewrite list_elem_of_singleton. discriminate.
Qed.

(** With [push] set to ['true'] and zips left to fetch, [run] ends with
    [pushFile]: on the target repository, branch and path, with the JSON
    of the new depot as content, the message of [getCommitMessage] for the
    depot of the file and the new depot, and the sha of the file it read
    ([null] without one).  The writes of [run] are those of this
    [pushFile]; [run] reports "Failed to push the file" exactly when
    [pushFile] returns [false], and returns normally both times. *)
Theorem run_pushes env (world : World) include_strategy
    target_repo_rid source_rid curr_depot_file releases events (world' : World) :
  run_reads env world include_strategy target_repo_rid source_rid
    curr_depot_file (Some releases) events world' →
  run_fetched include_strategy curr_depot_file releases ≠ [] →
  core_getInput env "push" = "true" →
  ∃ events3 world3 fetched_templates commit_message,
    execute
      (for_each (run_zips include_strategy curr_depot_file releases)
         (createBaseTemplate source_rid)) world'
    = (events3, world3, fetched_templates)
    ∧ getCommitMessage (curr_depot curr_depot_file) (omap id fetched_templates)
      = Return commit_message
    ∧ let pushed :=
        perform
          (pushFile target_repo_rid (core_getInput env "target_branch")
             (core_getInput env "target_path")
             (JSON_stringify_depot (omap id fetched_templates)) commit_message
             (FileContent.sha <$> curr_depot_file))
          world3 in
      pushes_requested (execute (run env) world).1.1 = requests pushed.1.1
      ∧ (execute (run env) world).1.2 = pushed.1.2
      ∧ (execute (run env) world).2 = Return tt
      ∧ outputs (execute (run env) world).1.1
        = (core_setOutput "depot" (JSON_stringify_depot (omap id fetched_templates))
           :: if pushed.2 then []
              else [core_setFailed "Failed to push the file"]).
Proof.
  intros Hreads Hleft Hpush. rewrite (execute_run _ _ _ _ _ _ _ _ _ Hreads).
  destruct (run_reads_only _ _ _ _ _ _ _ _ _ Hreads) as (Ha & Hp & Ho).
  destruct (run_fetched include_strategy curr_depot_file releases) eqn:Hfetched;
    [done|]. cbn [length Nat.eqb]. clear Hleft Hfetched.
  pose proof (for_each_createBaseTemplate source_rid
                (run_zips include_strategy curr_depot_file releases) world')
    as (_ & Hpushes & Houtputs & _).
  destruct (execute (for_each _ _) world') as [[events3 world3] fetched_templates].
  cbn [fst snd] in *.
  destruct (getCommitMessage_returns (curr_depot curr_depot_file)
              (omap id fetched_templates)) as [commit_message Hmessage].
  exists events3, world3, fetched_templates, commit_message.
  rewrite Hpush, Hmessage.
  change (String.eqb "true" "true") with true. cbn [negb fst snd].
  split; [done|]. split; [done|]. cbv zeta.
  rewrite !pushes_requested_app, !outputs_app, Hp, Ho, Hpushes, Houtputs.
  change (pushes_requested (Emitted ?o :: ?l)) with (pushes_requested l).
  change (outputs (Emitted ?o :: ?l)) with (o :: outputs l).
  rewrite pushes_requested_app, outputs_app, observe_pushes, observe_outputs.
  cbn [app]. repeat split.
  - by destruct (perform _ world3).2; rewrite app_nil_r.
  - by destruct (perform _ world3).2.
Qed.

End Run.

(** ** The first revision of the fetch *)

Section FirstRevision.
Context {runtime : JsRuntime} {node : NodeRuntime}.
Context {World : Type} {api : GitHubApi World}.

(** [fetchBaseTemplateFromZip] of the first revision and
    [createBaseTemplate], which later replaced it together with
    [getExternalTemplateFromZip], [parseExternalTemplate] and
    [convertExternalTemplateToBaseTemplate], make the same requests, leave
    GitHub in the same state and return the same entry. *)
Theorem fetchBaseTemplateFromZip_createBaseTemplate
    (rid : RepositoryIdentifier) (zip : DownloadableZip) (world : World) :
  execute (fetchBaseTemplateFromZip rid zip) world
  = execute (createBaseTemplate rid zip) world.
Proof.
  unfold fetchBaseTemplateFromZip, createBaseTemplate, getExternalTemplateFromZip.
  destruct (DownloadableZip.result zip) as [result|]; [done|].
  cbn [and_then execute].
  destruct (settle world _) as [[[data|]|error] final]; cbn [and_then execute];
    [|done|done].
  destruct (AdmZip_getEntry data "template.pros") as [?| |text];
    cbn [and_then execute]; [done|done|].
  unfold parseExternalTemplate.
  destruct (JSON_parse text) as [template_json|]; cbn [and_then execute]; [|done].
  cbn [mbind option_bind].
  by destruct (ExternalTemplateSchema_safeParse template_json).
Qed.

End FirstRevision.

(** ** Two runs of the action, on the example repository *)

Section TwoRuns.

Local Existing Instance two_runs_runtime.
Local Existing Instance two_runs_node.

(** The reads of a run are settled by evaluation. *)
Local Ltac reads_by_evaluation :=
  unfold run_reads;
  split; [reflexivity|]; split; [reflexivity|]; split; [reflexivity|];
  split; [by eexists|]; eexists _, _, _;
  split; [vm_compute; reflexivity|]; split; [vm_compute; reflexivity|];
  reflexivity.

(** An [include_prereleases] that is no literal of the action. *)
Lemma run_rejects_configuration_witness :
  let world := first_run_repository (Granted second_run_releases) in
  ∃ error,
    execute (run (example_environment "nightly" "true")) world
    = ([], world, Throw error).
Proof.
  intros world.
  apply (run_rejects_configuration (example_environment "nightly" "true") world).
  left. repeat split; discriminate.
Defined.

(** The last commit of the depot file carries a date that is none: the
    run throws after the two requests of [getFileContent]. *)
Lemma run_stops_after_the_file_witness :
  let world :=
    mkMockRepository
      (Granted (content_object "file" "3b18e512dba79e4c8300dd08aeb37f8e728b8dad"
                  (base64 second_run_depot_text)))
      (Granted [mkCommitItem (Some "yesterday")])
      (Granted second_run_releases) example_assets
      (mkMockGitHub ["refs/heads/depot"] None) in
  ∃ error,
    execute (run (example_environment "all" "true")) world
    = ((execute (getFileContent example_repository "depot" "depot.json") world).1.1, world,
       Throw error).
Proof.
  intros world.
  eapply (run_stops_after_the_file (example_environment "all" "true") world
            world all example_repository
            (Some (FileContent.mk "3b18e512dba79e4c8300dd08aeb37f8e728b8dad"
                     second_run_depot_text None))).
  - reflexivity.
  - reflexivity.
  - vm_compute. reflexivity.
  - left. reflexivity.
Defined.

(** GitHub is down when the first run lists the releases. *)
Lemma run_fails_without_releases_witness :
  let world := first_run_repository (Failed http_server_error) in
  outputs (execute (run (example_environment "all" "true")) world).1.1
  = [core_setFailed "Failed to fetch releases"]
  ∧ assets_requested (execute (run (example_environment "all" "true")) world).1.1
    = []
  ∧ pushes_requested (execute (run (example_environment "all" "true")) world).1.1
    = [].
Proof.
  intros world.
  refine (proj2 (run_fails_without_releases (example_environment "all" "true")
                   world all example_repository example_repository None _ world _)).
  reads_by_evaluation.
Defined.

(** A second run when nothing was released since the first. *)
Lemma run_up_to_date_witness :
  let world :=
    second_run_repository (Granted [Release.mk [template_1_0_0_asset] false]) in
  ∃ events,
    execute (run (example_environment "all" "true")) world
    = (events, world, Return tt)
    ∧ outputs events = []
    ∧ assets_requested events = []
    ∧ pushes_requested events = [].
Proof.
  intros world. eexists.
  refine (run_up_to_date (example_environment "all" "true") world all example_repository example_repository
            (Some second_run_depot_file)
            [Release.mk [template_1_0_0_asset] false] _ world _ _).
  - reads_by_evaluation.
  - vm_compute. reflexivity.
Defined.

(** The first run: the three zips of the two releases are fetched, in the
    order of the releases. *)
Lemma run_fetches_what_is_left_witness :
  let world := first_run_repository (Granted second_run_releases) in
  assets_requested (execute (run (example_environment "all" "false")) world).1.1
  = [11; 7; 8].
Proof.
  intros world.
  edestruct (run_fetches_what_is_left (example_environment "all" "false") world
              all example_repository example_repository None second_run_releases)
    as (fetched_templates & rest & Hassets & _).
  - reads_by_evaluation.
  - vm_compute. discriminate.
  - exact Hassets.
Defined.

(** The first run with [push] set to ['false']. *)
Lemma run_push_disabled_witness :
  let world := first_run_repository (Granted second_run_releases) in
  pushes_requested (execute (run (example_environment "all" "false")) world).1.1
  = [].
Proof.
  intros world.
  refine (proj1 (run_push_disabled (example_environment "all" "false") world _)).
  vm_compute. discriminate.
Defined.

(** The second run: the branch exists, the file is written over the one
    that was read. *)
Lemma run_pushes_witness :
  let world := second_run_repository (Granted second_run_releases) in
  (execute (run (example_environment "all" "true")) world).2 = Return tt
  ∧ outputs (execute (run (example_environment "all" "true")) world).1.1
    = [core_setOutput "depot" (JSON_stringify_depot [released_1_0_0])].
Proof.
  intros world.
  edestruct (run_pushes (example_environment "all" "true") world
              all example_repository example_repository (Some second_run_depot_file) second_run_releases)
    as (events3 & world3 & fetched_templates & commit_message
        & Hloop & Hmessage & _ & _ & Hreturns & Houtputs).
  - reads_by_evaluation.
  - vm_compute. discriminate.
  - reflexivity.
  - split; [exact Hreturns|]. vm_compute. reflexivity.
Defined.

End TwoRuns.
